(** * WHACK: the execution-and-normalization pipeline of [main.py]

    A shallow embedding of the scanning pipeline: tool selection
    ([filterCommands]), exit-code handling ([log_checking_codes]), the
    per-tool clean-up branches of the main loop, the wildcard filter for
    the content-discovery results and the accumulation of the result rows.

    Python values are modelled as follows.

    - A [str] is a [string]; a character is its code point, and the
      model covers the code points below 256.  The classification of
      characters (white space, line boundaries, case) is Python's for
      those code points.
    - Exceptions and [sys.exit] are results of a small state-and-error
      monad; the state holds the log records, the commands handed to
      [subprocess.run] and the global [results] list.
    - What the program reads from outside (the completed child
      processes, the JSON file written by ffuf, the wildcard probe) is
      an explicit environment. *)

From Stdlib Require Import List String Ascii ZArith Lia Bool.
From Stdlib Require Import DecimalString.
Import ListNotations.
Local Open Scope list_scope.
Local Open Scope string_scope.

(* ------------------------------------------------------------------ *)
(** * Python string primitives *)

Module PyStr.

Definition code (c : ascii) : nat := nat_of_ascii c.

(** [str.isspace] on one character: U+0009..U+000D, U+001C..U+001F,
    U+0020, U+0085 and U+00A0. *)
Definition is_space (c : ascii) : bool :=
  let n := code c in
  (((9 <=? n) && (n <=? 13)) || ((28 <=? n) && (n <=? 32))
   || (n =? 133) || (n =? 160))%nat.

(** The line boundaries of [str.splitlines]: LF, CR, VT, FF, FS, GS,
    RS and NEL. *)
Definition is_linebreak (c : ascii) : bool :=
  let n := code c in
  (((10 <=? n) && (n <=? 13)) || ((28 <=? n) && (n <=? 30))
   || (n =? 133))%nat.

Definition LF : ascii := ascii_of_nat 10.
Definition CR : ascii := ascii_of_nat 13.
Definition nl : string := String LF "".

(** [str.lower] on one character: A-Z and the capital letters of
    Latin-1 (U+00C0..U+00DE, the multiplication sign excepted). *)
Definition lower_char (c : ascii) : ascii :=
  let n := code c in
  if (((65 <=? n) && (n <=? 90))
      || ((192 <=? n) && (n <=? 222) && negb (n =? 215)))%nat
  then ascii_of_nat (n + 32) else c.

Fixpoint lower (s : string) : string :=
  match s with
  | "" => ""
  | String c s' => String (lower_char c) (lower s')
  end.

Fixpoint lstrip (s : string) : string :=
  match s with
  | "" => ""
  | String c s' => if is_space c then lstrip s' else s
  end.

Fixpoint rstrip (s : string) : string :=
  match s with
  | "" => ""
  | String c s' =>
      match rstrip s' with
      | "" => if is_space c then "" else String c ""
      | r => String c r
      end
  end.

(** [s.strip()] *)
Definition strip (s : string) : string := rstrip (lstrip s).

(** [s.startswith(p)] *)
Fixpoint startswith (s p : string) {struct p} : bool :=
  match p with
  | "" => true
  | String a p' =>
      match s with
      | "" => false
      | String b s' => Ascii.eqb a b && startswith s' p'
      end
  end.

(** [m in s] for two strings. *)
Fixpoint contains (m s : string) : bool :=
  startswith s m ||
  match s with
  | "" => false
  | String _ s' => contains m s'
  end.

(** [sep.join(parts)] *)
Definition join (sep : string) (parts : list string) : string :=
  String.concat sep parts.

(** Adds a character in front of the first field of a split. *)
Definition cons_first (c : ascii) (fields : list string) : list string :=
  match fields with
  | [] => [String c ""]
  | f :: fs => String c f :: fs
  end.

(** [s.split(sep)] for a one-character separator: never empty, the
    empty string gives one empty field. *)
Fixpoint split (sep : ascii) (s : string) : list string :=
  match s with
  | "" => [""]
  | String c s' =>
      if Ascii.eqb c sep then "" :: split sep s'
      else cons_first c (split sep s')
  end.

(** [s.split(sep, 1)] for a one-character separator: cut at the first
    separator only. *)
Fixpoint split1 (sep : ascii) (s : string) : list string :=
  match s with
  | "" => [""]
  | String c s' =>
      if Ascii.eqb c sep then [""; s']
      else cons_first c (split1 sep s')
  end.

(** [s.split()]: the maximal runs of characters that are not white
    space. *)
Fixpoint split_ws_from (cur : option string) (s : string) : list string :=
  match s with
  | "" => match cur with Some w => [w] | None => [] end
  | String c s' =>
      if is_space c then
        match cur with
        | Some w => w :: split_ws_from None s'
        | None => split_ws_from None s'
        end
      else
        split_ws_from
          (Some (match cur with Some w => w ++ String c "" | None => String c "" end))
          s'
  end.

Definition split_ws (s : string) : list string := split_ws_from None s.

(** [s.splitlines()]: no line for the empty string, no empty last
    line after a final boundary, CR LF is one boundary.  [after_cr]
    tells that the character before was a CR, which a LF then
    completes. *)
Fixpoint splitlines_from (after_cr : bool) (s : string) : list string :=
  match s with
  | "" => []
  | String c s' =>
      if after_cr && Ascii.eqb c LF then splitlines_from false s'
      else if is_linebreak c then "" :: splitlines_from (Ascii.eqb c CR) s'
      else cons_first c (splitlines_from false s')
  end.

Definition splitlines (s : string) : list string := splitlines_from false s.

Fixpoint all_chars (f : ascii -> bool) (s : string) : bool :=
  match s with
  | "" => true
  | String c s' => f c && all_chars f s'
  end.

(** [str(n)] for an integer. *)
Definition of_int (z : Z) : string := NilZero.string_of_int (Z.to_int z).

End PyStr.

(* ------------------------------------------------------------------ *)
(** * [os.path] on POSIX paths *)

Module OsPath.

(** [p.rfind(c)]: the last index of the character, or -1. *)
Fixpoint rfind_from (c : ascii) (s : string) (i last : Z) : Z :=
  match s with
  | "" => last
  | String a s' => rfind_from c s' (i + 1)%Z (if Ascii.eqb a c then i else last)
  end.

Definition rfind (c : ascii) (s : string) : Z := rfind_from c s 0%Z (-1)%Z.

(** [p[i:j]] for [0 <= i <= j]. *)
Definition slice (p : string) (i j : Z) : string :=
  substring (Z.to_nat i) (Z.to_nat (j - i)) p.

(** [os.path.basename]: what follows the last slash. *)
Definition basename (p : string) : string :=
  let i := (rfind "/" p + 1)%Z in
  slice p i (Z.of_nat (String.length p)).

(** [os.path.splitext(p)[0]]: the extension starts at the last dot of
    the last component, unless only dots precede it there. *)
Definition splitext_root (p : string) : string :=
  let sepIndex := rfind "/" p in
  let dotIndex := rfind "." p in
  if (dotIndex >? sepIndex)%Z then
    if PyStr.all_chars (fun c => Ascii.eqb c ".") (slice p (sepIndex + 1) dotIndex)
    then p
    else slice p 0 dotIndex
  else p.

End OsPath.

(* ------------------------------------------------------------------ *)
(** * Values read from the JSON file *)

(** What [json.load] returns.  Numbers are integers, as in the files
    ffuf writes. *)
#[warnings="-register-all"]
Inductive json : Type :=
| JNull
| JBool (b : bool)
| JInt (z : Z)
| JStr (s : string)
| JList (items : list json)
| JDict (entries : list (string * json)).

Inductive Exn : Type :=
| IndexError
| FileNotFoundError
| JSONDecodeError
| AttributeError
| KeyError (key : string)
| TypeError.

Module PyVal.

Fixpoint lookup {V : Type} (k : string) (d : list (string * V)) : option V :=
  match d with
  | [] => None
  | (k', v) :: d' => if String.eqb k' k then Some v else lookup k d'
  end.

(** [d[k] = v] on an insertion-ordered dict: an existing key keeps
    its place. *)
Fixpoint dict_set {V : Type} (k : string) (v : V) (d : list (string * V))
  : list (string * V) :=
  match d with
  | [] => [(k, v)]
  | (k', v') :: d' =>
      if String.eqb k' k then (k', v) :: d' else (k', v') :: dict_set k v d'
  end.

Definition keys {V : Type} (d : list (string * V)) : list string :=
  map fst d.

(** [v[k]] for a string key. *)
Definition subscript (v : json) (k : string) : Exn + json :=
  match v with
  | JDict d =>
      match lookup k d with
      | Some x => inr x
      | None => inl (KeyError k)
      end
  | _ => inl TypeError
  end.

(** [data.get(k, [])]: only a dict has the method. *)
Definition get_or_empty_list (data : json) (k : string) : Exn + json :=
  match data with
  | JDict d =>
      match lookup k d with
      | Some x => inr x
      | None => inr (JList [])
      end
  | _ => inl AttributeError
  end.

Fixpoint chars (s : string) : list json :=
  match s with
  | "" => []
  | String c s' => JStr (String c "") :: chars s'
  end.

(** The items a [for] loop sees. *)
Definition iterate (v : json) : Exn + list json :=
  match v with
  | JList l => inr l
  | JDict d => inr (map (fun kv => JStr (fst kv)) d)
  | JStr s => inr (chars s)
  | _ => inl TypeError
  end.

(** [v != n] for an integer [n]; [True] and [False] compare as 1 and 0. *)
Definition ne_int (v : json) (n : Z) : bool :=
  match v with
  | JInt z => negb (Z.eqb z n)
  | JBool b => negb (Z.eqb (if b then 1 else 0) n)
  | _ => true
  end.

Definition squote : ascii := ascii_of_nat 39.
Definition dquote : ascii := ascii_of_nat 34.
Definition backslash : ascii := ascii_of_nat 92.

Definition hex_digit (n : nat) : ascii :=
  if (n <? 10)%nat then ascii_of_nat (48 + n) else ascii_of_nat (87 + n).

Definition printable (c : ascii) : bool :=
  let n := PyStr.code c in
  (((32 <=? n) && (n <=? 126)) || ((161 <=? n) && negb (n =? 173)))%nat.

Definition escape_char (quote c : ascii) : string :=
  if Ascii.eqb c backslash || Ascii.eqb c quote then String backslash (String c "")
  else if Ascii.eqb c PyStr.LF then String backslash "n"
  else if Ascii.eqb c PyStr.CR then String backslash "r"
  else if Ascii.eqb c (ascii_of_nat 9) then String backslash "t"
  else if printable c then String c ""
  else String backslash
         (String "x" (String (hex_digit (PyStr.code c / 16))
                        (String (hex_digit (PyStr.code c mod 16)) ""))).

Fixpoint escape (quote : ascii) (s : string) : string :=
  match s with
  | "" => ""
  | String c s' => escape_char quote c ++ escape quote s'
  end.

(** [repr(s)] for a string: single quotes, unless the string has a
    single quote and no double quote. *)
Definition repr_str (s : string) : string :=
  let q := if PyStr.contains (String squote "") s
              && negb (PyStr.contains (String dquote "") s)
           then dquote else squote in
  String q (escape q s) ++ String q "".

Fixpoint repr (v : json) : string :=
  match v with
  | JNull => "None"
  | JBool b => if b then "True" else "False"
  | JInt z => PyStr.of_int z
  | JStr s => repr_str s
  | JList l => "[" ++ PyStr.join ", " (map repr l) ++ "]"
  | JDict d =>
      "{" ++ PyStr.join ", "
               (map (fun kv => repr_str (fst kv) ++ ": " ++ repr (snd kv)) d)
          ++ "}"
  end.

(** [str(v)], which an f-string applies to each field. *)
Definition str (v : json) : string :=
  match v with
  | JStr s => s
  | _ => repr v
  end.

End PyVal.

(* ------------------------------------------------------------------ *)
(** * The program state and its monad *)

Inductive Level : Type := INFO | WARNING | ERROR.

(** One row of the global [results] list: [{"Tool": ..., "Result": ...}]. *)
Record Row : Type := mkRow { Tool : string; Result : string }.

Record World : Type := mkWorld {
  log : list (Level * string);       (* records handed to [logging] *)
  dispatched : list (list string);   (* commands handed to [subprocess.run] *)
  results : list Row                 (* the global [results] *)
}.

Definition initial_world : World := mkWorld [] [] [].

(** How a computation ends: with a value, with an uncaught exception,
    or in [sys.exit]. *)
Inductive Outcome (A : Type) : Type :=
| Ret (a : A)
| Raise (e : Exn)
| Exit (code : Z).
Arguments Ret {A} a.
Arguments Raise {A} e.
Arguments Exit {A} code.

Definition M (A : Type) : Type := World -> Outcome A * World.

Definition ret {A : Type} (a : A) : M A := fun w => (Ret a, w).

Definition bind {A B : Type} (m : M A) (k : A -> M B) : M B :=
  fun w =>
    match m w with
    | (Ret a, w') => k a w'
    | (Raise e, w') => (Raise e, w')
    | (Exit c, w') => (Exit c, w')
    end.

Definition raise {A : Type} (e : Exn) : M A := fun w => (Raise e, w).
Definition sys_exit {A : Type} (code : Z) : M A := fun w => (Exit code, w).

Notation "x <- m ;; k" := (bind m (fun x => k))
  (at level 61, m at next level, right associativity).
Notation "m ;;; k" := (bind m (fun _ => k))
  (at level 61, right associativity).

(** Lifts a pure step that may raise. *)
Definition lift {A : Type} (r : Exn + A) : M A :=
  match r with
  | inl e => raise e
  | inr a => ret a
  end.

Definition logging (lvl : Level) (msg : string) : M unit :=
  fun w => (Ret tt, mkWorld (log w ++ [(lvl, msg)]) (dispatched w) (results w)).

Definition results_append (r : Row) : M unit :=
  fun w => (Ret tt, mkWorld (log w) (dispatched w) (results w ++ [r])).

(** A [for] loop over a list. *)
Fixpoint for_each {A : Type} (xs : list A) (body : A -> M unit) : M unit :=
  match xs with
  | [] => ret tt
  | x :: xs' => body x ;;; for_each xs' body
  end.

(* ------------------------------------------------------------------ *)
(** * The environment *)

(** The command-line arguments and what is computed from them at start. *)
Record Config : Type := mkConfig {
  url : string;
  ports : string;
  tools : string;
  target_ip : string;      (* [urlparse(url).hostname] *)
  seclist_file : string    (* the word list next to the script *)
}.

(** [subprocess.run(..., stdout=PIPE, stderr=STDOUT, text=True)] *)
Record CompletedProcess : Type := mkCompleted {
  returncode : Z;
  stdout : string
}.

(** [open] followed by [json.load] on the file ffuf writes. *)
Inductive JsonFile : Type :=
| FileAbsent                (* [open] raises *)
| FileMalformed             (* [json.load] raises *)
| FileJson (data : json).

Record Env : Type := mkEnv {
  subprocess_run : list string -> CompletedProcess;
  ffuf_result_json : JsonFile;
  (* [requests.get(fake_url, timeout=5)]: the body, or the exception text *)
  requests_get : string -> string + string
}.

(** Sequencing of pure steps that may raise. *)
Definition bindE {A B : Type} (r : Exn + A) (k : A -> Exn + B) : Exn + B :=
  match r with
  | inl e => inl e
  | inr a => k a
  end.

Notation "x <-? r ;; k" := (bindE r (fun x => k))
  (at level 61, r at next level, right associativity).

(* ------------------------------------------------------------------ *)
(** * The script *)

Section Script.

Variable cfg : Config.
Variable env : Env.

Definition allowed_tools : list string :=
  ["nmap"; "whatweb"; "wafwoof"; "ffuf"; "nikto"].

(** The registry, in the order the dict literal declares it. *)
Definition commands : list (string * list string) :=
  [ ("Nmap", ["nmap"; "-sV"; "-p"; ports cfg; target_ip cfg]);
    ("Whatweb", ["whatweb"; url cfg]);
    ("Wafwoof", ["wafw00f"; url cfg]);
    ("Ffuf", ["ffuf"; "-u"; url cfg ++ "/FUZZ"; "-w"; seclist_file cfg;
              "-of"; "json"; "-o"; "./outputs/ffuf_result.json"]);
    ("Nikto", ["nikto"; "-h"; url cfg]) ].

Definition str_in (x : string) (l : list string) : bool :=
  existsb (String.eqb x) l.

(** [d[k]] on a dict with string keys. *)
Definition getitem {V : Type} (d : list (string * V)) (k : string) : Exn + V :=
  match PyVal.lookup k d with
  | Some v => inr v
  | None => inl (KeyError k)
  end.

(** The dict comprehension of [filterCommands], one requested name
    after the other. *)
Fixpoint build_filtered (key_map : list (string * string))
         (selected : list string) (acc : list (string * list string))
  : Exn + list (string * list string) :=
  match selected with
  | [] => inr acc
  | tool :: rest =>
      key <-? getitem key_map tool ;;
      key' <-? getitem key_map tool ;;
      cmd <-? getitem commands key' ;;
      build_filtered key_map rest (PyVal.dict_set key cmd acc)
  end.

Definition filterCommands : M (list (string * list string)) :=
  if String.eqb (tools cfg) "all" then ret commands
  else
    let selected_tools :=
      map (fun tool => PyStr.lower (PyStr.strip tool)) (PyStr.split "," (tools cfg)) in
    let allowed_lower := map PyStr.lower allowed_tools in
    let invalid_tools :=
      filter (fun tool => negb (str_in tool allowed_lower)) selected_tools in
    match invalid_tools with
    | _ :: _ =>
        logging ERROR ("Invalid tool(s) specified: " ++ PyStr.join ", " invalid_tools) ;;;
        sys_exit 1
    | [] =>
        let key_map := map (fun kv => (PyStr.lower (fst kv), fst kv)) commands in
        lift (build_filtered key_map selected_tools [])
    end.

Definition log_checking_codes (tool_name : string) (result : CompletedProcess)
           (output : string) : M string :=
  let output := PyStr.strip output in
  if negb (Z.eqb (returncode result) 0) then
    if String.eqb tool_name "Nikto" then
      if PyStr.contains "Nikto v" output
         && (PyStr.contains "+ Target" output || PyStr.contains "+ Server:" output)
      then
        logging INFO (tool_name ++ " executed successfully.") ;;;
        ret output
      else
        logging ERROR "Nikto failed: no valid output returned." ;;;
        ret ("Error: " ++ output)
    else
      logging ERROR (tool_name ++ " failed with exit code "
                     ++ PyStr.of_int (returncode result)) ;;;
      ret ("Error: " ++ output)
  else
    logging INFO (tool_name ++ " executed successfully.") ;;;
    ret output.

Definition get_ffuf_results : M json :=
  match ffuf_result_json env with
  | FileAbsent => raise FileNotFoundError
  | FileMalformed => raise JSONDecodeError
  | FileJson data => lift (PyVal.get_or_empty_list data "results")
  end.

Definition get_wildcard_length : M (option Z) :=
  let fake_url := url cfg ++ "/zz_fake_wildcard_check_path_999" in
  match requests_get env fake_url with
  | inl text => ret (Some (Z.of_nat (String.length text)))
  | inr e =>
      logging WARNING ("[Ffuf] Wildcard detection failed: " ++ e) ;;;
      ret None
  end.

Fixpoint filter_items (items : list json) (wildcard_length : Z)
  : Exn + list json :=
  match items with
  | [] => inr []
  | result :: rest =>
      len <-? PyVal.subscript result "length" ;;
      kept <-? filter_items rest wildcard_length ;;
      inr (if PyVal.ne_int len wildcard_length then result :: kept else kept)
  end.

Definition filter_by_length (ffuf_results : json) (wildcard_length : Z)
  : Exn + list json :=
  items <-? PyVal.iterate ffuf_results ;;
  filter_items items wildcard_length.

(** The f-string that renders one finding. *)
Definition format_finding (r : json) : Exn + string :=
  input <-? PyVal.subscript r "input" ;;
  fuzz <-? PyVal.subscript input "FUZZ" ;;
  status <-? PyVal.subscript r "status" ;;
  length <-? PyVal.subscript r "length" ;;
  words <-? PyVal.subscript r "words" ;;
  lines <-? PyVal.subscript r "lines" ;;
  words' <-? PyVal.subscript r "words" ;;
  inr (PyVal.str fuzz ++ " [Status: " ++ PyVal.str status
       ++ ", Size: " ++ PyVal.str length
       ++ ", Words: " ++ PyVal.str words
       ++ ", Lines: " ++ PyVal.str lines
       ++ ", Words: " ++ PyVal.str words' ++ "]").

Fixpoint format_findings (rs : list json) : Exn + list string :=
  match rs with
  | [] => inr []
  | r :: rest =>
      line <-? format_finding r ;;
      more <-? format_findings rest ;;
      inr (line :: more)
  end.

(** ** The clean-up branches of the main loop *)

Definition waf_verdict (line : string) : bool :=
  PyStr.contains "No WAF detected" line || PyStr.contains "is behind" line.

Definition clean_wafwoof (output : string) : string :=
  match find waf_verdict (PyStr.splitlines output) with
  | Some line => line
  | None => output
  end.

Definition clean_whatweb (output : string) : Exn + string :=
  match PyStr.split1 " " output with
  | _ :: second :: _ => inr second
  | _ => inl IndexError
  end.

Definition nmap_banner (line : string) : bool :=
  PyStr.startswith line "Starting Nmap"
  || PyStr.startswith line "Nmap scan report for"
  || PyStr.startswith line "Host is up"
  || PyStr.startswith line "Service detection performed."
  || PyStr.startswith line "Nmap done:".

Definition clean_nmap (output : string) : string :=
  let filtered_lines :=
    filter (fun line => negb (nmap_banner line)) (PyStr.splitlines output) in
  PyStr.strip (PyStr.join PyStr.nl filtered_lines).

Definition clean_ffuf (output : string) : M string :=
  ffuf_results <- get_ffuf_results ;;
  wildcard_length <- get_wildcard_length ;;
  match wildcard_length with
  | Some wl =>
      filtered_results <- lift (filter_by_length ffuf_results wl) ;;
      rendered <- lift (format_findings filtered_results) ;;
      ret (PyStr.join PyStr.nl rendered)
  | None => ret output
  end.

(** [next((p for p in parts if p.startswith("/")), None)] *)
Definition nikto_path (line : string) : option string :=
  find (fun p => PyStr.startswith p "/") (PyStr.split_ws line).

Definition nikto_skipped (line : string) : bool :=
  negb (PyStr.startswith line "+") || PyStr.startswith line "+-".

Definition nikto_basename (path : string) : string :=
  OsPath.splitext_root (OsPath.basename path).

(** One turn of the loop over the lines, on [(seen_paths,
    filtered_lines)]. *)
Definition nikto_step (st : list string * list string) (line : string)
  : list string * list string :=
  let '(seen_paths, filtered_lines) := st in
  if nikto_skipped line then st
  else
    match nikto_path line with
    | Some path =>
        if negb (String.eqb path "") then
          let basename := nikto_basename path in
          if str_in basename seen_paths then st
          else (basename :: seen_paths, (filtered_lines ++ [PyStr.strip line])%list)
        else (seen_paths, (filtered_lines ++ [PyStr.strip line])%list)
    | None => (seen_paths, (filtered_lines ++ [PyStr.strip line])%list)
    end.

Definition nikto_lines (lines : list string) : list string :=
  snd (fold_left nikto_step lines ([], [])).

Definition clean_nikto (output : string) : string :=
  PyStr.join PyStr.nl (nikto_lines (PyStr.splitlines output)).

Definition clean (tool_name output : string) : M string :=
  if String.eqb tool_name "Wafwoof" then ret (clean_wafwoof output)
  else if String.eqb tool_name "Whatweb" then lift (clean_whatweb output)
  else if String.eqb tool_name "Nmap" then ret (clean_nmap output)
  else if String.eqb tool_name "Ffuf" then clean_ffuf output
  else if String.eqb tool_name "Nikto" then ret (clean_nikto output)
  else ret output.

Definition run (cmd : list string) : M CompletedProcess :=
  fun w => (Ret (subprocess_run env cmd),
            mkWorld (log w) (dispatched w ++ [cmd]) (results w)).

(** The body of the main loop. *)
Definition run_tool (item : string * list string) : M unit :=
  let '(tool_name, cmd) := item in
  logging INFO ("Running " ++ tool_name) ;;;
  result <- run cmd ;;
  output <- log_checking_codes tool_name result (stdout result) ;;
  output <- clean tool_name output ;;
  results_append (mkRow tool_name (PyStr.strip output)).

(** The script up to the end of the main loop; what follows only
    writes and displays [results]. *)
Definition main : M unit :=
  logging INFO ("Target URL: " ++ url cfg) ;;;
  logging INFO ("Ports to scan: " ++ ports cfg) ;;;
  cmds <- filterCommands ;;
  for_each cmds run_tool.

(** One tool on its own: exit-code handling, clean-up and the final
    [strip], as the loop body applies them to a captured output. *)
Definition normalize (tool_name : string) (result : CompletedProcess) : M string :=
  output <- log_checking_codes tool_name result (stdout result) ;;
  output <- clean tool_name output ;;
  ret (PyStr.strip output).

End Script.

(* ------------------------------------------------------------------ *)
(** * Vocabulary of the statements *)

(** The identifiers of the registry, in declared order. *)
Definition tool_ids : list string :=
  ["Nmap"; "Whatweb"; "Wafwoof"; "Ffuf"; "Nikto"].

(** The names of a selection string, as typed. *)
Definition requested_names (selection : string) : list string :=
  PyStr.split "," selection.

(** A name passes the check of [filterCommands]: trimmed and in lower
    case it is one of the allowed names in lower case. *)
Definition is_allowed (name : string) : bool :=
  str_in (PyStr.lower (PyStr.strip name)) (map PyStr.lower allowed_tools).

(** The registry identifier that equals the name up to case (and the
    white space around the name). *)
Definition registry_key (name : string) : option string :=
  find (fun key => String.eqb (PyStr.lower key) (PyStr.lower (PyStr.strip name)))
       tool_ids.

(** A list without its repetitions: each element stays where it first
    occurs. *)
Fixpoint first_mentions_from (seen : list string) (l : list string)
  : list string :=
  match l with
  | [] => []
  | x :: rest =>
      if str_in x seen then first_mentions_from seen rest
      else x :: first_mentions_from (seen ++ [x]) rest
  end.

Definition first_mentions (l : list string) : list string :=
  first_mentions_from [] l.

(** The message of the error record for a list of rejected names. *)
Definition invalid_message (names : list string) : string :=
  "Invalid tool(s) specified: "
  ++ PyStr.join ", " (map (fun n => PyStr.lower (PyStr.strip n)) names).

(** The rejected names of a selection, as typed. *)
Definition offending (selection : string) : list string :=
  filter (fun n => negb (is_allowed n)) (requested_names selection).

(** A selection [filterCommands] accepts: the sentinel, or names that
    all pass the check. *)
Definition valid_selection (selection : string) : Prop :=
  selection = "all"
  \/ Forall (fun n => is_allowed n = true) (requested_names selection).

(** The map of [filterCommands] from lower-case names to registry keys. *)
Definition key_map (cfg : Config) : list (string * string) :=
  map (fun kv => (PyStr.lower (fst kv), fst kv)) (commands cfg).

(** The state after more log records. *)
Definition logged (w : World) (records : list (Level * string)) : World :=
  mkWorld (log w ++ records) (dispatched w) (results w).

(** A computation that leaves [results] and the dispatched commands as
    they are, however it ends. *)
Definition quiet {A : Type} (m : M A) : Prop :=
  forall w r w', m w = (r, w') ->
    results w' = results w /\ dispatched w' = dispatched w.

(** A computation that never ends in [sys.exit]. *)
Definition no_exit {A : Type} (m : M A) : Prop :=
  forall w c w', m w <> (Exit c, w').

(** The state once the loop body has announced a tool and handed its
    command to [subprocess.run]. *)
Definition started (w : World) (t : string) (cmd : list string) : World :=
  mkWorld (log w ++ [(INFO, "Running " ++ t)]) (dispatched w ++ [cmd]) (results w).

(** The state after one more row. *)
Definition recorded (w : World) (r : Row) : World :=
  mkWorld (log w) (dispatched w) (results w ++ [r]).

(** The two records the script logs before it selects the tools. *)
Definition preamble (cfg : Config) : list (Level * string) :=
  [(INFO, "Target URL: " ++ url cfg); (INFO, "Ports to scan: " ++ ports cfg)].


(** ** Characters and lines *)

(** No line boundary. *)
Definition not_break (c : ascii) : bool := negb (PyStr.is_linebreak c).

(** No line boundary, or the boundary LF. *)
Definition plain_or_lf (c : ascii) : bool :=
  negb (PyStr.is_linebreak c) || Ascii.eqb c PyStr.LF.

(** A text whose first character is no white space. *)
Definition starts_solid (m : string) : bool :=
  match m with
  | "" => false
  | String a _ => negb (PyStr.is_space a)
  end.

(** A text whose last character is no white space. *)
Fixpoint ends_solid (m : string) : bool :=
  match m with
  | "" => false
  | String a "" => negb (PyStr.is_space a)
  | String _ m' => ends_solid m'
  end.

(** [xs] is [ys] cut short: some first lines of [ys], the last of them
    possibly cut. *)
Inductive truncated : list string -> list string -> Prop :=
| trunc_nil ys : truncated [] ys
| trunc_last x z ys : truncated [x] ((x ++ z) :: ys)
| trunc_cons x xs ys : truncated xs ys -> truncated (x :: xs) (x :: ys).

(** ** The text of a tool that exited with code 0 *)

(** What the loop body makes of the captured text then: the [strip] of
    [log_checking_codes], the clean-up branch, and the [strip] of the
    row. *)
Definition waf_text (raw : string) : string :=
  PyStr.strip (clean_wafwoof (PyStr.strip raw)).

Definition nmap_text (raw : string) : string :=
  PyStr.strip (clean_nmap (PyStr.strip raw)).

(** The lines the service-scan clean-up keeps. *)
Definition nmap_kept (output : string) : list string :=
  filter (fun line => negb (nmap_banner line)) (PyStr.splitlines output).

(** ** The vuln-scan rule in the words of the specification *)

(** A line the clean-up looks at: it starts with the finding marker and
    is no separator line. *)
Definition nikto_finding (line : string) : bool := negb (nikto_skipped line).

(** The base name a finding line is filed under, when it has a path. *)
Definition nikto_key (line : string) : option string :=
  match nikto_path line with
  | Some path =>
      if negb (String.eqb path "") then Some (nikto_basename path) else None
  | None => None
  end.

(** A finding line filed under the base name [b]. *)
Definition filed_under (b : string) (line : string) : bool :=
  nikto_finding line &&
  match nikto_key line with
  | Some b' => String.eqb b b'
  | None => false
  end.

(** What the rule says of a line, given the lines before it: it is
    retained when it is a finding line and no finding line before it is
    filed under the same base name. *)
Definition retained_after (earlier : list string) (line : string) : bool :=
  nikto_finding line &&
  match nikto_key line with
  | Some b => negb (existsb (filed_under b) earlier)
  | None => true
  end.

(** The rule applied to [lines] that come after [earlier]. *)
Fixpoint keep_first_from (earlier lines : list string) : list string :=
  match lines with
  | [] => []
  | line :: rest =>
      if retained_after earlier line
      then PyStr.strip line :: keep_first_from (earlier ++ [line]) rest
      else keep_first_from (earlier ++ [line]) rest
  end.

Definition keep_first_by_basename (lines : list string) : list string :=
  keep_first_from [] lines.

(** [seen] holds the base names of the finding lines of [earlier]. *)
Definition seen_of (seen earlier : list string) : Prop :=
  forall b, str_in b seen = existsb (filed_under b) earlier.

(** ** Normalizing a normalized text *)

(** The text a tool's normalization returns after exit code 0 is
    returned unchanged when it is normalized again. *)
Definition renormalizes_unchanged (tool : string) : Prop :=
  forall cfg env raw w text w1,
    normalize cfg env tool (mkCompleted 0 raw) w = (Ret text, w1) ->
    exists w2, normalize cfg env tool (mkCompleted 0 text) w1 = (Ret text, w2).

(** ** A target and an environment for the examples *)

Definition example_config (selection : string) : Config :=
  mkConfig "http://x.com" "80,443" selection "x.com"
           "/opt/whack/utils/seclist_discovery.txt".

(** Every tool prints [text] and exits with [code]; the structured file
    is as given; the wildcard probe times out. *)
Definition example_env (code : Z) (text : string) (file : JsonFile) : Env :=
  mkEnv (fun _ => mkCompleted code text) file (fun _ => inr "timed out").

(** ** More of the script *)

(** The test of [filter_by_length] on one item whose length can be read. *)
Definition differs_from (wildcard_length : Z) (r : json) : bool :=
  match PyVal.subscript r "length" with
  | inr len => PyVal.ne_int len wildcard_length
  | inl _ => false
  end.

(** [isinstance(v, dict)]. *)
Definition is_dict (v : json) : bool :=
  match v with
  | JDict _ => true
  | _ => false
  end.

(** A finding of the content-discovery tool. *)
Record Finding : Type := mkFinding {
  f_path : string;
  f_status : Z;
  f_length : Z;
  f_words : Z;
  f_lines : Z
}.

(** The item [r] of the structured file carries the finding [f]. *)
Definition describes (r : json) (f : Finding) : Prop :=
  (exists input, PyVal.subscript r "input" = inr input
                 /\ PyVal.subscript input "FUZZ" = inr (JStr (f_path f)))
  /\ PyVal.subscript r "status" = inr (JInt (f_status f))
  /\ PyVal.subscript r "length" = inr (JInt (f_length f))
  /\ PyVal.subscript r "words" = inr (JInt (f_words f))
  /\ PyVal.subscript r "lines" = inr (JInt (f_lines f)).

(** The line the content-discovery branch writes for a finding. *)
Definition rendered (f : Finding) : string :=
  f_path f ++ " [Status: " ++ PyStr.of_int (f_status f)
  ++ ", Size: " ++ PyStr.of_int (f_length f)
  ++ ", Words: " ++ PyStr.of_int (f_words f)
  ++ ", Lines: " ++ PyStr.of_int (f_lines f)
  ++ ", Words: " ++ PyStr.of_int (f_words f) ++ "]".

(** The URL of the wildcard probe. *)
Definition fake_url (cfg : Config) : string :=
  url cfg ++ "/zz_fake_wildcard_check_path_999".

(** No slash, no dot, only dots. *)
Definition no_slash (s : string) : bool :=
  PyStr.all_chars (fun c => negb (Ascii.eqb c "/")) s.

Definition no_dot (s : string) : bool :=
  PyStr.all_chars (fun c => negb (Ascii.eqb c ".")) s.

Definition only_dots (s : string) : bool :=
  PyStr.all_chars (fun c => Ascii.eqb c ".") s.

(** The same run with another selection string. *)
Definition with_tools (cfg : Config) (selection : string) : Config :=
  mkConfig (url cfg) (ports cfg) selection (target_ip cfg) (seclist_file cfg).

(** The names of a selection as [filterCommands] compares them. *)
Definition selected_names (selection : string) : list string :=
  map (fun n => PyStr.lower (PyStr.strip n)) (requested_names selection).

(** The text a tool's row gets when the tool is run on its own. *)
Definition text_alone (cfg : Config) (env : Env) (item : string * list string)
  : string :=
  match fst (normalize cfg env (fst item) (subprocess_run env (snd item))
                       initial_world) with
  | Ret text => text
  | _ => ""
  end.

(** A computation whose outcome does not depend on the state, and which
    only adds log records, the same whatever the state. *)
Definition steady {A : Type} (m : M A) : Prop :=
  exists out records, forall w, m w = (out, logged w records).

(** ** The progress indicator *)

(** [Spinner.spinner] *)
Definition spinner_frames : list string := ["|"; "/"; "-"; "\"].

(** [self.spinner[i % len(self.spinner)]] *)
Definition spinner_frame (i : nat) : Exn + string :=
  match nth_error spinner_frames (i mod List.length spinner_frames) with
  | Some frame => inr frame
  | None => inl IndexError
  end.

Definition cr : string := String PyStr.CR "".

(** What turn [i] of [Spinner._spin] writes to the terminal. *)
Definition spin_write (message : string) (i : nat) : Exn + string :=
  frame <-? spinner_frame i ;;
  inr (cr ++ message ++ " " ++ frame).

(** [" " * n] *)
Fixpoint spaces (n : nat) : string :=
  match n with
  | O => ""
  | S n' => String " " (spaces n')
  end.

(** What [Spinner.stop] writes once the thread has ended. *)
Definition stop_write (message : string) : string :=
  cr ++ spaces (String.length message + 2) ++ cr.

(** ** Findings for the examples *)

Definition example_item (path : string) (status length words lines : Z) : json :=
  JDict [("input", JDict [("FUZZ", JStr path)]);
         ("position", JInt 1);
         ("status", JInt status);
         ("length", JInt length);
         ("words", JInt words);
         ("lines", JInt lines)].

(** A wildcard page of 1234 characters and a real page. *)
Definition example_items : list json :=
  [example_item "admin" 200 1234 80 20; example_item "login" 200 987 61 17].

Definition example_findings : list Finding :=
  [mkFinding "admin" 200 1234 80 20; mkFinding "login" 200 987 61 17].

(** The probe answers with a body of [n] characters. *)
Definition example_env_with_baseline (file : JsonFile) (n : nat) : Env :=
  mkEnv (fun _ => mkCompleted 0 "console") file (fun _ => inl (spaces n)).

(* ------------------------------------------------------------------ *)
(** * Facts about the string primitives *)

Module PyStrFacts.
Import PyStr.

Lemma rstrip_cons (c : ascii) (s : string) :
  rstrip (String c s)
  = if String.eqb (rstrip s) "" then (if is_space c then "" else String c "")
    else String c (rstrip s).
Proof. simpl. destruct (rstrip s); reflexivity. Qed.

Lemma lstrip_idem (s : string) : lstrip (lstrip s) = lstrip s.
Proof.
  induction s as [| c s IH]; simpl; [reflexivity | ].
  destruct (is_space c) eqn:E; [assumption | ]. simpl. now rewrite E.
Qed.

Lemma rstrip_idem (s : string) : rstrip (rstrip s) = rstrip s.
Proof.
  induction s as [| c s IH]; [reflexivity | ].
  rewrite rstrip_cons.
  destruct (rstrip s) as [| a r] eqn:E; simpl.
  - destruct (is_space c) eqn:Ec; simpl; [reflexivity | now rewrite Ec].
  - simpl in IH. rewrite IH. reflexivity.
Qed.

Lemma lstrip_rstrip (s : string) : lstrip (rstrip s) = rstrip (lstrip s).
Proof.
  induction s as [| c s IH]; [reflexivity | ].
  rewrite rstrip_cons. simpl lstrip at 2.
  destruct (is_space c) eqn:Ec.
  - rewrite <- IH. destruct (rstrip s) as [| a r]; simpl; [reflexivity | ].
    now rewrite Ec.
  - rewrite rstrip_cons.
    destruct (rstrip s) as [| a r]; simpl; now rewrite Ec.
Qed.

Lemma strip_idem (s : string) : strip (strip s) = strip s.
Proof.
  unfold strip. rewrite lstrip_rstrip, lstrip_idem. apply rstrip_idem.
Qed.


Lemma all_chars_app f (a b : string) :
  all_chars f (a ++ b) = all_chars f a && all_chars f b.
Proof.
  induction a as [| c a IH]; simpl; [reflexivity | ].
  now rewrite IH, andb_assoc.
Qed.

Lemma all_chars_lstrip f (s : string) :
  all_chars f s = true -> all_chars f (lstrip s) = true.
Proof.
  induction s as [| c s IH]; simpl; [reflexivity | ].
  intros H. apply andb_prop in H. destruct H as [Hc Hs].
  destruct (is_space c); [auto | ]. simpl. now rewrite Hc, Hs.
Qed.

Lemma all_chars_rstrip f (s : string) :
  all_chars f s = true -> all_chars f (rstrip s) = true.
Proof.
  induction s as [| c s IH]; [reflexivity | ].
  rewrite rstrip_cons. cbn [all_chars].
  intros H. apply andb_prop in H. destruct H as [Hc Hs].
  destruct (rstrip s) as [| a r]; simpl.
  - destruct (is_space c); simpl; [reflexivity | now rewrite Hc].
  - rewrite Hc. simpl. exact (IH Hs).
Qed.

Lemma all_chars_strip f (s : string) :
  all_chars f s = true -> all_chars f (strip s) = true.
Proof. intros H. unfold strip. now apply all_chars_rstrip, all_chars_lstrip. Qed.

(** The members of [cons_first c fields]. *)
Lemma In_cons_first c fields l :
  In l (cons_first c fields) ->
  l = String c "" \/ (exists f, l = String c f /\ In f fields) \/ In l (tl fields).
Proof.
  destruct fields as [| f fs]; simpl.
  - intros [H | []]. now left.
  - intros [H | H]; [right; left; exists f; auto | now right; right].
Qed.

(** A line has no line boundary in it. *)
Lemma splitlines_line_free (s : string) :
  forall flag l, In l (splitlines_from flag s) -> all_chars not_break l = true.
Proof.
  induction s as [| c s IH]; intros flag l; cbn [splitlines_from];
    [intros H; inversion H | ].
  destruct (flag && Ascii.eqb c LF); [apply IH | ].
  destruct (is_linebreak c) eqn:Ec.
  - intros [<- | H]; [reflexivity | eapply IH; eauto].
  - intros H. apply In_cons_first in H.
    destruct H as [-> | [(f & -> & Hf) | H]].
    + simpl. unfold not_break. now rewrite Ec.
    + simpl. unfold not_break at 1. rewrite Ec. simpl. eapply IH; eauto.
    + apply (IH false). destruct (splitlines_from false s); [contradiction | now right].
Qed.

(** A text without a line boundary is its own single line. *)
Lemma splitlines_single (s : string) :
  s <> "" -> all_chars not_break s = true -> splitlines s = [s].
Proof.
  unfold splitlines.
  induction s as [| c s IH]; [congruence | ]. intros _ H.
  cbn [all_chars] in H. apply andb_prop in H. destruct H as [Hc Hs].
  unfold not_break in Hc. apply negb_true_iff in Hc.
  cbn [splitlines_from]. rewrite Hc. cbn [andb].
  destruct s as [| c' s']; [reflexivity | ].
  rewrite IH; [reflexivity | discriminate | assumption].
Qed.

Lemma contains_nonempty m : m <> "" -> contains m "" = false.
Proof. destruct m; [congruence | reflexivity]. Qed.

Lemma contains_lstrip (m l : string) :
  starts_solid m = true -> contains m l = true -> contains m (lstrip l) = true.
Proof.
  destruct m as [| a m]; [discriminate | ]. cbn [starts_solid]. intros Ha.
  induction l as [| c l IH]; [auto | ].
  cbn [lstrip]. destruct (is_space c) eqn:Ec; [ | auto].
  cbn [contains startswith].
  destruct (Ascii.eqb_spec a c) as [-> | _]; [now rewrite Ec in Ha | ].
  cbn [andb orb]. exact IH.
Qed.

Lemma startswith_rstrip (m : string) :
  ends_solid m = true ->
  forall l, startswith l m = true -> startswith (rstrip l) m = true.
Proof.
  induction m as [| a m IH]; [discriminate | ]. intros Hm l.
  destruct l as [| c l]; [discriminate | ].
  cbn [startswith]. intros H. apply andb_prop in H. destruct H as [Hac Hl].
  rewrite rstrip_cons.
  destruct m as [| a' m'].
  - cbn [ends_solid] in Hm. apply Ascii.eqb_eq in Hac. subst c.
    apply negb_true_iff in Hm. rewrite Hm.
    destruct (rstrip l); cbn; now rewrite Ascii.eqb_refl.
  - assert (Hm' : ends_solid (String a' m') = true) by exact Hm.
    specialize (IH Hm' l Hl).
    destruct (rstrip l) as [| x r]; [discriminate | ].
    change (String.eqb (String x r) "") with false. cbn iota.
    change (startswith (String c (String x r)) (String a (String a' m')))
      with (Ascii.eqb a c && startswith (String x r) (String a' m')).
    now rewrite Hac, IH.
Qed.

Lemma contains_rstrip (m l : string) :
  ends_solid m = true -> contains m l = true -> contains m (rstrip l) = true.
Proof.
  intros Hm. induction l as [| c l IH]; [auto | ].
  cbn [contains]. intros H. apply orb_prop in H. destruct H as [H | H].
  - apply (startswith_rstrip m Hm) in H.
    destruct (rstrip (String c l)); cbn [contains]; now rewrite H.
  - specialize (IH H). rewrite rstrip_cons.
    destruct (rstrip l) as [| x r].
    + rewrite contains_nonempty in IH; [discriminate | ].
      intros ->. discriminate.
    + change (String.eqb (String x r) "") with false. cbn iota.
      change (contains m (String c (String x r)))
        with (startswith (String c (String x r)) m || contains m (String x r)).
      rewrite IH. apply orb_true_r.
Qed.

Lemma contains_strip (m l : string) :
  starts_solid m = true -> ends_solid m = true ->
  contains m l = true -> contains m (strip l) = true.
Proof.
  intros H1 H2 H. unfold strip. now apply contains_rstrip, contains_lstrip.
Qed.

Lemma space_of_break c : is_linebreak c = true -> is_space c = true.
Proof.
  destruct c as [[] [] [] [] [] [] [] []]; vm_compute; congruence.
Qed.

Lemma rstrip_split (s : string) : exists ws, s = rstrip s ++ ws.
Proof.
  induction s as [| c s [ws IH]]; [now exists "" | ].
  rewrite rstrip_cons.
  destruct (rstrip s) as [| x r] eqn:E.
  - cbn. destruct (is_space c).
    + now exists (String c s).
    + exists s. reflexivity.
  - exists ws. change (String c s = String c (String x r ++ ws)). now f_equal.
Qed.

Lemma truncated_cons_first c xs ys :
  truncated xs ys -> truncated (cons_first c xs) (cons_first c ys).
Proof.
  intros H. destruct H as [ys | x z ys | x xs ys H]; cbn.
  - destruct ys as [| y ys];
      [exact (trunc_last (String c "") "" []) | exact (trunc_last (String c "") y ys)].
  - exact (trunc_last (String c x) z ys).
  - now apply trunc_cons.
Qed.

Lemma splitlines_app_truncated (a b : string) :
  forall flag,
    truncated (splitlines_from flag a) (splitlines_from flag (a ++ b)).
Proof.
  induction a as [| c a IH]; intros flag; [apply trunc_nil | ].
  cbn [append splitlines_from].
  destruct (flag && Ascii.eqb c LF); [apply IH | ].
  destruct (is_linebreak c).
  - apply trunc_cons, IH.
  - apply truncated_cons_first, IH.
Qed.

Lemma truncated_In xs ys :
  truncated xs ys ->
  forall l, In l xs -> exists z, In (l ++ z) ys.
Proof.
  induction 1 as [ys | x z ys | x xs ys H IH]; intros l Hl.
  - contradiction.
  - destruct Hl as [<- | []]. exists z. now left.
  - destruct Hl as [<- | Hl].
    + exists "". left. clear. induction x; cbn; congruence.
    + destruct (IH l Hl) as [z Hz]. exists z. now right.
Qed.

(** Every line of [rstrip s] begins a line of [s]. *)
Lemma splitlines_rstrip (s : string) (l : string) :
  In l (splitlines (rstrip s)) -> exists z, In (l ++ z) (splitlines s).
Proof.
  destruct (rstrip_split s) as [ws Hs]. intros H. unfold splitlines in *.
  destruct (truncated_In _ _ (splitlines_app_truncated (rstrip s) ws false) l H)
    as [z Hz].
  exists z. now rewrite <- Hs in Hz.
Qed.

Lemma incl_tl_self {A : Type} (l : list A) : incl (tl l) l.
Proof. destruct l; [apply incl_refl | apply incl_tl, incl_refl]. Qed.

Lemma tl_cons_first c fields : tl (cons_first c fields) = tl fields.
Proof. destruct fields; reflexivity. Qed.

(** The lines of [lstrip s] after its first are lines of [s]. *)
Lemma splitlines_lstrip_tail (s : string) :
  forall flag,
    incl (tl (splitlines (lstrip s))) (tl (splitlines_from flag s)).
Proof.
  unfold splitlines.
  induction s as [| c s IH]; intros flag; [apply incl_refl | ].
  cbn [lstrip]. destruct (is_space c) eqn:Ec.
  - cbn [splitlines_from].
    destruct (flag && Ascii.eqb c LF); [apply IH | ].
    destruct (is_linebreak c).
    + cbn [tl]. eapply incl_tran; [apply IH | apply incl_tl_self].
    + rewrite tl_cons_first. apply IH.
  - cbn [splitlines_from].
    assert (Hb : is_linebreak c = false).
    { destruct (is_linebreak c) eqn:E; [ | reflexivity].
      apply space_of_break in E. congruence. }
    assert (Hlf : Ascii.eqb c LF = false).
    { destruct (Ascii.eqb_spec c LF) as [-> | ]; [discriminate | reflexivity]. }
    rewrite Hb, Hlf, !andb_false_r. apply incl_refl.
Qed.

Lemma hd_cons_first c fields :
  hd "" (cons_first c fields) = String c (hd "" fields).
Proof. destruct fields; reflexivity. Qed.

(** A text begins with a prefix free of line boundaries exactly when
    its first line does. *)
Lemma startswith_first_line (t : string) :
  forall p, all_chars not_break p = true ->
            startswith (hd "" (splitlines t)) p = startswith t p.
Proof.
  unfold splitlines.
  induction t as [| c t IH]; intros p Hp; [reflexivity | ].
  cbn [splitlines_from andb].
  destruct p as [| a p]; [reflexivity | ].
  cbn [all_chars] in Hp. apply andb_prop in Hp. destruct Hp as [Ha Hp].
  destruct (is_linebreak c) eqn:Ec.
  - cbn [hd startswith].
    destruct (Ascii.eqb_spec a c) as [-> | _]; [ | reflexivity].
    unfold not_break in Ha. now rewrite Ec in Ha.
  - rewrite hd_cons_first. cbn [startswith]. now rewrite IH.
Qed.

Lemma startswith_app (l z p : string) :
  startswith l p = true -> startswith (l ++ z) p = true.
Proof.
  revert l. induction p as [| a p IH]; intros l; [reflexivity | ].
  destruct l as [| c l]; [discriminate | ].
  cbn [append startswith]. intros H. apply andb_prop in H. destruct H as [H1 H2].
  now rewrite H1, IH.
Qed.

Lemma join_cons2 sep (x y : string) (rest : list string) :
  join sep (x :: y :: rest) = x ++ sep ++ join sep (y :: rest).
Proof. reflexivity. Qed.

(** A line, the boundary LF, and more text. *)
Lemma splitlines_line_lf (l rest : string) :
  all_chars not_break l = true ->
  splitlines (l ++ String LF rest) = l :: splitlines rest.
Proof.
  unfold splitlines. induction l as [| c l IH]; intros H.
  - reflexivity.
  - cbn [all_chars] in H. apply andb_prop in H. destruct H as [Hc Hl].
    unfold not_break in Hc. apply negb_true_iff in Hc.
    cbn [append splitlines_from andb]. rewrite Hc, (IH Hl). reflexivity.
Qed.

(** The lines of joined lines are among the lines joined. *)
Lemma splitlines_join_incl (ls : list string) :
  Forall (fun l => all_chars not_break l = true) ls ->
  incl (splitlines (join nl ls)) ls.
Proof.
  induction 1 as [| l ls Hl Hls IH]; [apply incl_refl | ].
  destruct ls as [| l2 ls].
  - cbn [join concat]. destruct l as [| c l]; [intros x [] | ].
    rewrite splitlines_single; [apply incl_refl | discriminate | assumption].
  - rewrite join_cons2. cbn [nl append].
    rewrite (splitlines_line_lf _ _ Hl).
    intros x [<- | Hx]; [now left | right; now apply IH].
Qed.

Lemma plain_of_not_break (s : string) :
  all_chars not_break s = true -> all_chars plain_or_lf s = true.
Proof.
  induction s as [| c s IH]; [reflexivity | ]. cbn [all_chars].
  intros H. apply andb_prop in H. destruct H as [Hc Hs].
  rewrite (IH Hs). unfold plain_or_lf. unfold not_break in Hc. now rewrite Hc.
Qed.

Lemma join_plain_or_lf (ls : list string) :
  Forall (fun l => all_chars not_break l = true) ls ->
  all_chars plain_or_lf (join nl ls) = true.
Proof.
  induction 1 as [| l ls Hl Hls IH]; [reflexivity | ].
  destruct ls as [| l2 ls].
  - cbn [join concat]. now apply plain_of_not_break.
  - rewrite join_cons2, !all_chars_app, IH, (plain_of_not_break _ Hl). reflexivity.
Qed.

Lemma join_cons_first c (fields : list string) :
  join nl (cons_first c fields) = String c (join nl fields).
Proof.
  destruct fields as [| f [| f2 fs]]; reflexivity.
Qed.

Lemma splitlines_nil (s : string) : splitlines s = [] -> s = "".
Proof.
  unfold splitlines. destruct s as [| c s]; [reflexivity | ].
  cbn [splitlines_from andb].
  destruct (is_linebreak c); [discriminate | ].
  destruct (splitlines_from false s); discriminate.
Qed.

(** Splitting and joining again gives the text back, when its only
    boundaries are LF and it does not end in white space. *)
Lemma join_splitlines (t : string) :
  all_chars plain_or_lf t = true -> rstrip t = t ->
  join nl (splitlines t) = t.
Proof.
  induction t as [| c t IH]; [reflexivity | ].
  cbn [all_chars]. intros H Hr. apply andb_prop in H. destruct H as [Hc Ht].
  assert (Hr' : rstrip t = t).
  { rewrite rstrip_cons in Hr.
    destruct (rstrip t) as [| x r] eqn:E.
    - cbn in Hr. destruct (is_space c); [discriminate | ]. now inversion Hr.
    - cbn in Hr. now inversion Hr. }
  specialize (IH Ht Hr').
  unfold splitlines in *. cbn [splitlines_from andb].
  destruct (is_linebreak c) eqn:Eb.
  - unfold plain_or_lf in Hc. rewrite Eb in Hc. cbn [negb orb] in Hc.
    apply Ascii.eqb_eq in Hc.
    assert (Hcr : Ascii.eqb c CR = false) by (rewrite Hc; reflexivity).
    rewrite Hcr.
    destruct (splitlines_from false t) as [| l ls] eqn:El.
    + apply splitlines_nil in El. subst t c. discriminate.
    + rewrite join_cons2, IH, Hc. reflexivity.
  - now rewrite join_cons_first, IH.
Qed.

Lemma rstrip_strip (s : string) : rstrip (strip s) = strip s.
Proof. unfold strip. apply rstrip_idem. Qed.

Lemma strip_lstrip_rstrip (s : string) : strip s = lstrip (rstrip s).
Proof. unfold strip. symmetry. apply lstrip_rstrip. Qed.

Lemma filter_all {A : Type} (f : A -> bool) (l : list A) :
  (forall x, In x l -> f x = true) -> filter f l = l.
Proof.
  induction l as [| a l IH]; intros H; [reflexivity | ].
  simpl. rewrite (H a (or_introl eq_refl)). f_equal. apply IH.
  intros x Hx. apply H. now right.
Qed.

End PyStrFacts.

(* ------------------------------------------------------------------ *)
(** * Tool selection *)

Section Selection.

Variable cfg : Config.

Lemma str_in_In (x : string) (l : list string) :
  str_in x l = true <-> In x l.
Proof.
  unfold str_in. rewrite existsb_exists. split.
  - intros [y [Hy Heq]]. apply String.eqb_eq in Heq. now subst.
  - intros H. exists x. split; [assumption | apply String.eqb_refl].
Qed.

Lemma keys_commands : PyVal.keys (commands cfg) = tool_ids.
Proof. reflexivity. Qed.

(** The names the check accepts are the five allowed ones. *)
Lemma allowed_cases (t : string) :
  str_in t (map PyStr.lower allowed_tools) = true ->
  t = "nmap" \/ t = "whatweb" \/ t = "wafwoof" \/ t = "ffuf" \/ t = "nikto".
Proof.
  intros H. apply str_in_In in H. simpl in H.
  repeat (destruct H as [H | H]; [subst; tauto | ]). contradiction.
Qed.

(** For an accepted name both subscripts of the comprehension succeed,
    and the key is the registry identifier matching the name. *)
Lemma accepted_lookup (name : string) :
  is_allowed name = true ->
  exists key cmd,
    registry_key name = Some key /\
    getitem (key_map cfg) (PyStr.lower (PyStr.strip name)) = inr key /\
    getitem (commands cfg) key = inr cmd /\
    In (key, cmd) (commands cfg).
Proof.
  unfold is_allowed, registry_key. intros H.
  destruct (allowed_cases _ H) as [E | [E | [E | [E | E]]]]; rewrite E;
    eexists; eexists; (split; [reflexivity | split; [reflexivity | split; [reflexivity | ]]]);
    simpl; tauto.
Qed.

Lemma keys_dict_set {V : Type} (k : string) (v : V) (d : list (string * V)) :
  PyVal.keys (PyVal.dict_set k v d)
  = if str_in k (PyVal.keys d) then PyVal.keys d else (PyVal.keys d ++ [k])%list.
Proof.
  induction d as [| [k' v'] d IH]; simpl; [reflexivity | ].
  rewrite (String.eqb_sym k k').
  destruct (String.eqb k' k) eqn:E; simpl; [reflexivity | ].
  unfold PyVal.keys in *. rewrite IH.
  unfold str_in. destruct (existsb (String.eqb k) (map fst d)); reflexivity.
Qed.

Lemma In_dict_set {V : Type} (k : string) (v : V) (d : list (string * V)) e :
  In e (PyVal.dict_set k v d) -> e = (k, v) \/ In e d.
Proof.
  induction d as [| [k' v'] d IH]; simpl.
  - intros [H | []]; auto.
  - destruct (String.eqb k' k) eqn:E; simpl.
    + apply String.eqb_eq in E. subst. intros [H | H]; auto.
    + intros [H | H]; auto. destruct (IH H); auto.
Qed.

(** The comprehension over accepted names: it returns, its entries
    are registry entries, and its keys are the requested identifiers
    in the order of their first mention. *)
Lemma build_filtered_spec (names : list string) :
  Forall (fun n => is_allowed n = true) names ->
  forall acc, incl acc (commands cfg) ->
  exists d ks,
    build_filtered cfg (key_map cfg)
      (map (fun n => PyStr.lower (PyStr.strip n)) names) acc = inr d /\
    incl d (commands cfg) /\
    map registry_key names = map Some ks /\
    PyVal.keys d = (PyVal.keys acc ++ first_mentions_from (PyVal.keys acc) ks)%list.
Proof.
  induction 1 as [| n names Hn Hall IH]; intros acc Hacc.
  - exists acc, []. simpl. rewrite app_nil_r. auto.
  - destruct (accepted_lookup n Hn) as (key & cmd & Hk & Hg1 & Hg2 & Hin).
    destruct (IH (PyVal.dict_set key cmd acc)) as (d & ks & Hb & Hi & Hm & Hkeys).
    { intros e He. destruct (In_dict_set _ _ _ _ He) as [-> | He']; auto. }
    exists d, (key :: ks). simpl. rewrite Hg1. simpl. rewrite Hg2. simpl.
    rewrite Hb, Hk, Hm. repeat split; auto.
    rewrite Hkeys, keys_dict_set.
    destruct (str_in key (PyVal.keys acc)); [reflexivity | ].
    now rewrite <- app_assoc.
Qed.

Lemma filter_map_swap {A B : Type} (f : A -> B) (p : B -> bool) (l : list A) :
  filter p (map f l) = map f (filter (fun a => p (f a)) l).
Proof.
  induction l as [| a l IH]; simpl; [reflexivity | ].
  destruct (p (f a)); simpl; now rewrite IH.
Qed.

(** [filterCommands] on a selection with a rejected name. *)
Lemma filterCommands_rejects (w : World) :
  tools cfg <> "all" ->
  offending (tools cfg) <> [] ->
  filterCommands cfg w
  = (Exit 1,
     mkWorld (log w ++ [(ERROR, invalid_message (offending (tools cfg)))])
             (dispatched w) (results w)).
Proof.
  intros Hall Hoff. unfold filterCommands.
  apply String.eqb_neq in Hall. rewrite Hall.
  rewrite filter_map_swap.
  fold (requested_names (tools cfg)).
  change (filter _ (requested_names (tools cfg))) with (offending (tools cfg)).
  destruct (offending (tools cfg)) as [| n ns] eqn:E; [congruence | ].
  reflexivity.
Qed.

(** [filterCommands] on a selection whose names are all accepted. *)
Lemma filterCommands_accepts (w : World) :
  tools cfg <> "all" ->
  Forall (fun n => is_allowed n = true) (requested_names (tools cfg)) ->
  exists d ks,
    filterCommands cfg w = (Ret d, w) /\
    incl d (commands cfg) /\
    map registry_key (requested_names (tools cfg)) = map Some ks /\
    PyVal.keys d = first_mentions ks.
Proof.
  intros Hall Hok. unfold filterCommands.
  apply String.eqb_neq in Hall. rewrite Hall.
  rewrite filter_map_swap. fold (requested_names (tools cfg)).
  change (filter _ (requested_names (tools cfg))) with (offending (tools cfg)).
  assert (Hnone : offending (tools cfg) = []).
  { unfold offending. induction Hok as [| n ns Hn _ IH]; simpl; [reflexivity | ].
    rewrite Hn. simpl. exact IH. }
  rewrite Hnone.
  destruct (build_filtered_spec _ Hok [] (incl_nil_l _)) as (d & ks & Hb & Hi & Hm & Hk).
  exists d, ks. fold (key_map cfg). rewrite Hb. simpl. auto.
Qed.

End Selection.

Section SelectionClaims.

Variable cfg : Config.
Variable env : Env.

Lemma first_mentions_from_nodup (l seen : list string) :
  NoDup l -> (forall x, In x l -> ~ In x seen) ->
  first_mentions_from seen l = l.
Proof.
  intros Hnd. revert seen.
  induction Hnd as [| x l Hx Hnd IH]; intros seen Hseen; simpl; [reflexivity | ].
  destruct (str_in x seen) eqn:E.
  - apply str_in_In in E. exfalso. apply (Hseen x); simpl; auto.
  - f_equal. apply IH. intros y Hy Hin.
    apply in_app_or in Hin. destruct Hin as [Hin | [-> | []]].
    + apply (Hseen y); simpl; auto.
    + contradiction.
Qed.

(** [first_mentions] keeps every element once. *)
Lemma first_mentions_from_In (l seen : list string) (x : string) :
  In x (first_mentions_from seen l) <-> In x l /\ ~ In x seen.
Proof.
  revert seen. induction l as [| y l IH]; intros seen; simpl; [tauto | ].
  destruct (str_in y seen) eqn:E.
  - apply str_in_In in E. rewrite IH. split.
    + intros [H1 H2]. auto.
    + intros [[-> | H1] H2]; [contradiction | auto].
  - assert (Hy : ~ In y seen).
    { intros H. apply str_in_In in H. congruence. }
    simpl. rewrite IH. split.
    + intros [<- | [H1 H2]]; [auto | ].
      split; [auto | ]. intros H. apply H2. apply in_or_app. auto.
    + intros [[-> | H1] H2]; [auto | ].
      destruct (string_dec y x) as [-> | Hne]; [auto | ].
      right. split; [assumption | ].
      intros H. apply in_app_or in H. destruct H as [H | [H | []]]; auto.
Qed.

Lemma first_mentions_from_NoDup (l seen : list string) :
  NoDup (first_mentions_from seen l).
Proof.
  revert seen. induction l as [| y l IH]; intros seen; simpl; [constructor | ].
  destruct (str_in y seen); [apply IH | ].
  constructor; [ | apply IH].
  intros H. apply first_mentions_from_In in H. destruct H as [_ H].
  apply H, in_or_app. right. now left.
Qed.

(** The whole script on a selection with a rejected name: it stops in
    [sys.exit(1)] after the error record, with nothing run. *)
Lemma main_rejects :
  tools cfg <> "all" ->
  offending (tools cfg) <> [] ->
  main cfg env initial_world
  = (Exit 1,
     mkWorld (preamble cfg ++ [(ERROR, invalid_message (offending (tools cfg)))])
             [] []).
Proof.
  intros Hall Hoff. unfold main, bind, logging. simpl.
  rewrite (filterCommands_rejects cfg _ Hall Hoff). reflexivity.
Qed.

Lemma offending_In (name : string) :
  In name (requested_names (tools cfg)) -> is_allowed name = false ->
  In name (offending (tools cfg)).
Proof.
  intros Hin Hbad. unfold offending. apply filter_In. split; [assumption | ].
  now rewrite Hbad.
Qed.

(** C5.  A selection string (other than the sentinel) with at least
    one name that matches no registry identifier up to case makes the
    script stop in [sys.exit(1)]; the one error record lists every
    rejected name of the selection, and no command has been handed to
    [subprocess.run]. *)
Theorem unknown_tool_is_fatal :
  tools cfg <> "all" ->
  (exists name, In name (requested_names (tools cfg)) /\ is_allowed name = false) ->
  exists w',
    main cfg env initial_world = (Exit 1, w') /\
    dispatched w' = [] /\
    results w' = [] /\
    log w' = (preamble cfg ++ [(ERROR, invalid_message (offending (tools cfg)))])%list /\
    (forall name, In name (requested_names (tools cfg)) ->
                  is_allowed name = false -> In name (offending (tools cfg))).
Proof.
  intros Hall (name & Hin & Hbad).
  assert (Hoff : offending (tools cfg) <> []).
  { intros E. pose proof (offending_In name Hin Hbad) as H. now rewrite E in H. }
  eexists. split; [apply (main_rejects Hall Hoff) | ].
  simpl. repeat split; auto using offending_In.
Qed.

(** C6.  For a valid selection [filterCommands] returns; every entry
    returned is an entry of the registry; for the sentinel the result
    is the whole registry in declared order; for an explicit selection
    the keys are the registry identifiers of the requested names in
    the caller's order (a name requested again keeps its first place). *)
Theorem selection_keeps_callers_order (w : World) :
  valid_selection (tools cfg) ->
  exists d,
    filterCommands cfg w = (Ret d, w) /\
    incl d (commands cfg) /\
    (tools cfg = "all" -> d = commands cfg /\ PyVal.keys d = tool_ids) /\
    (tools cfg <> "all" ->
     exists ks,
       map registry_key (requested_names (tools cfg)) = map Some ks /\
       PyVal.keys d = first_mentions ks /\
       (NoDup ks -> PyVal.keys d = ks)).
Proof.
  intros Hvalid.
  destruct (String.eqb (tools cfg) "all") eqn:E.
  - apply String.eqb_eq in E. exists (commands cfg).
    unfold filterCommands. rewrite E. simpl.
    repeat split; auto using incl_refl. congruence.
  - apply String.eqb_neq in E. destruct Hvalid as [Hs | Hok]; [contradiction | ].
    destruct (filterCommands_accepts cfg w E Hok) as (d & ks & Hf & Hi & Hm & Hk).
    exists d. repeat split; auto; try contradiction.
    intros _. exists ks. repeat split; auto.
    intros Hnd. rewrite Hk. apply first_mentions_from_nodup; auto.
Qed.

(** C9.  Only the exact string "all" is the sentinel.  In any other
    selection a name that reads "all" up to case and surrounding
    white space is checked like a tool name: it is not an allowed
    name, so the script stops in [sys.exit(1)] with "all" among the
    rejected names and nothing run.  "ALL", "All" and "all,nmap" are
    such selections. *)
Theorem sentinel_is_exact :
  is_allowed "all" = false /\
  (tools cfg <> "all" ->
   (exists name, In name (requested_names (tools cfg))
                 /\ PyStr.lower (PyStr.strip name) = "all") ->
   exists w',
     main cfg env initial_world = (Exit 1, w') /\
     dispatched w' = [] /\
     results w' = [] /\
     log w' = (preamble cfg ++ [(ERROR, invalid_message (offending (tools cfg)))])%list /\
     In "all" (map (fun n => PyStr.lower (PyStr.strip n)) (offending (tools cfg)))) /\
  (In (tools cfg) ["ALL"; "All"; "all,nmap"] ->
   main cfg env initial_world
   = (Exit 1,
      mkWorld (preamble cfg ++ [(ERROR, "Invalid tool(s) specified: all")]) [] [])).
Proof.
  split; [reflexivity | split].
  - intros Hall (name & Hin & Hname).
    assert (Hbad : is_allowed name = false).
    { unfold is_allowed. rewrite Hname. reflexivity. }
    assert (Hoff : In name (offending (tools cfg))) by auto using offending_In.
    eexists. split; [apply (main_rejects Hall) | ].
    + intros E. now rewrite E in Hoff.
    + simpl. repeat split; auto.
      apply in_map_iff. exists name. now split.
  - intros Hin.
    assert (Hall : tools cfg <> "all").
    { simpl in Hin. destruct Hin as [H | [H | [H | []]]]; rewrite <- H; discriminate. }
    assert (Hoff : invalid_message (offending (tools cfg)) = "Invalid tool(s) specified: all"
                   /\ offending (tools cfg) <> []).
    { simpl in Hin. destruct Hin as [H | [H | [H | []]]]; rewrite <- H;
        (split; [reflexivity | discriminate]). }
    destruct Hoff as [Hmsg Hoff].
    rewrite (main_rejects Hall Hoff), Hmsg. reflexivity.
Qed.

End SelectionClaims.

(* ------------------------------------------------------------------ *)
(** * The steps of the loop body *)

Create HintDb quiet.

Section Steps.

Variable cfg : Config.
Variable env : Env.

Lemma quiet_ret {A : Type} (a : A) : quiet (ret a).
Proof. intros w r w' H. inversion H. auto. Qed.

Lemma quiet_raise {A : Type} (e : Exn) : quiet (@raise A e).
Proof. intros w r w' H. inversion H. auto. Qed.

Lemma quiet_lift {A : Type} (x : Exn + A) : quiet (lift x).
Proof. destruct x; [apply quiet_raise | apply quiet_ret]. Qed.

Lemma quiet_logging (lvl : Level) (msg : string) : quiet (logging lvl msg).
Proof. intros w r w' H. inversion H. auto. Qed.

Lemma quiet_bind {A B : Type} (m : M A) (k : A -> M B) :
  quiet m -> (forall a, quiet (k a)) -> quiet (bind m k).
Proof.
  intros Hm Hk w r w' H. unfold bind in H.
  destruct (m w) as [[a | e | c] w1] eqn:E.
  - destruct (Hm _ _ _ E) as [H1 H2]. destruct (Hk a _ _ _ H) as [H3 H4].
    split; congruence.
  - inversion H; subst. eauto.
  - inversion H; subst. eauto.
Qed.

#[local] Hint Resolve quiet_ret quiet_raise quiet_lift quiet_logging quiet_bind
  : quiet.

Lemma quiet_log_checking_codes t result output :
  quiet (log_checking_codes t result output).
Proof.
  unfold log_checking_codes.
  repeat match goal with |- context [if ?b then _ else _] => destruct b end;
    auto with quiet.
Qed.

Lemma quiet_get_ffuf_results : quiet (get_ffuf_results env).
Proof. unfold get_ffuf_results. destruct (ffuf_result_json env); auto with quiet. Qed.

Lemma quiet_get_wildcard_length : quiet (get_wildcard_length cfg env).
Proof.
  unfold get_wildcard_length. destruct (requests_get env _); auto with quiet.
Qed.

#[local] Hint Resolve quiet_log_checking_codes quiet_get_ffuf_results
  quiet_get_wildcard_length : quiet.

Lemma quiet_clean t output : quiet (clean cfg env t output).
Proof.
  unfold clean, clean_ffuf.
  repeat match goal with |- context [if ?b then _ else _] => destruct b end;
    auto with quiet.
  apply quiet_bind; auto with quiet. intros a.
  apply quiet_bind; auto with quiet. intros [wl | ]; auto 7 with quiet.
Qed.

Lemma no_exit_ret {A : Type} (a : A) : no_exit (ret a).
Proof. intros w c w' H. inversion H. Qed.

Lemma no_exit_raise {A : Type} (e : Exn) : no_exit (@raise A e).
Proof. intros w c w' H. inversion H. Qed.

Lemma no_exit_lift {A : Type} (x : Exn + A) : no_exit (lift x).
Proof. destruct x; [apply no_exit_raise | apply no_exit_ret]. Qed.

Lemma no_exit_logging (lvl : Level) (msg : string) : no_exit (logging lvl msg).
Proof. intros w c w' H. inversion H. Qed.

Lemma no_exit_bind {A B : Type} (m : M A) (k : A -> M B) :
  no_exit m -> (forall a, no_exit (k a)) -> no_exit (bind m k).
Proof.
  intros Hm Hk w c w' H. unfold bind in H.
  destruct (m w) as [[a | e | c'] w1] eqn:E.
  - exact (Hk a _ _ _ H).
  - inversion H.
  - exact (Hm _ _ _ E).
Qed.

#[local] Hint Resolve no_exit_ret no_exit_raise no_exit_lift no_exit_logging
  no_exit_bind : quiet.

Lemma no_exit_clean t output : no_exit (clean cfg env t output).
Proof.
  unfold clean, clean_ffuf, get_ffuf_results, get_wildcard_length.
  repeat match goal with |- context [if ?b then _ else _] => destruct b end;
    auto with quiet.
  apply no_exit_bind; [destruct (ffuf_result_json env); auto with quiet | ].
  intros a.
  apply no_exit_bind; [destruct (requests_get env _); auto with quiet | ].
  intros [wl | ]; auto 7 with quiet.
Qed.

(** [log_checking_codes] always returns a text, after one log record. *)
Lemma log_checking_codes_returns t result output w :
  exists o lvl msg,
    log_checking_codes t result output w = (Ret o, logged w [(lvl, msg)]).
Proof.
  unfold log_checking_codes, bind, logging, logged.
  repeat match goal with |- context [if ?b then _ else _] => destruct b end;
    simpl; do 3 eexists; reflexivity.
Qed.

Lemma log_checking_codes_zero t result output w :
  returncode result = 0%Z ->
  log_checking_codes t result output w
  = (Ret (PyStr.strip output), logged w [(INFO, t ++ " executed successfully.")]).
Proof. intros H. unfold log_checking_codes. rewrite H. reflexivity. Qed.

Lemma log_checking_codes_nonzero t result output w :
  returncode result <> 0%Z -> t <> "Nikto" ->
  log_checking_codes t result output w
  = (Ret ("Error: " ++ PyStr.strip output),
     logged w [(ERROR, t ++ " failed with exit code "
                       ++ PyStr.of_int (returncode result))]).
Proof.
  intros H Ht. unfold log_checking_codes.
  apply Z.eqb_neq in H. rewrite H. apply String.eqb_neq in Ht. rewrite Ht.
  reflexivity.
Qed.

(** The loop body ends by returning or raising; when it returns, it
    has appended the tool's row and dispatched its command; when it
    raises, [results] is as before. *)
Lemma run_tool_cases t cmd w :
  (exists w', run_tool cfg env (t, cmd) w = (Ret tt, w')
              /\ map Tool (results w') = (map Tool (results w) ++ [t])%list
              /\ dispatched w' = (dispatched w ++ [cmd])%list)
  \/ (exists e w', run_tool cfg env (t, cmd) w = (Raise e, w')
                   /\ results w' = results w
                   /\ dispatched w' = (dispatched w ++ [cmd])%list).
Proof.
  destruct (run_tool cfg env (t, cmd) w) as [r wf] eqn:E.
  unfold run_tool in E. unfold bind at 1 in E. simpl in E.
  unfold bind at 1, run at 1 in E. simpl in E.
  set (w1 := mkWorld _ _ _) in E.
  unfold bind at 1 in E.
  destruct (log_checking_codes_returns t (subprocess_run env cmd)
              (stdout (subprocess_run env cmd)) w1) as (o & lvl & msg & Ho).
  rewrite Ho in E. unfold bind at 1 in E.
  destruct (clean cfg env t o (logged w1 [(lvl, msg)])) as [[o' | e | c] w2] eqn:Ec.
  - left. destruct (quiet_clean _ _ _ _ _ Ec) as [Hr Hd]. simpl in Hr, Hd.
    unfold results_append in E. inversion E; subst r wf.
    eexists. split; [reflexivity | ]. simpl. rewrite Hr, Hd, map_app. auto.
  - right. destruct (quiet_clean _ _ _ _ _ Ec) as [Hr Hd]. simpl in Hr, Hd.
    inversion E; subst r wf.
    eexists. eexists. split; [reflexivity | ]. auto.
  - exfalso. exact (no_exit_clean _ _ _ _ _ Ec).
Qed.

End Steps.

(* ------------------------------------------------------------------ *)
(** * The main loop *)

Section Loop.

Variable cfg : Config.
Variable env : Env.

Lemma run_tool_unfold t cmd w :
  run_tool cfg env (t, cmd) w
  = bind (log_checking_codes t (subprocess_run env cmd)
            (stdout (subprocess_run env cmd)))
      (fun output =>
         bind (clean cfg env t output)
           (fun output => results_append (mkRow t (PyStr.strip output))))
      (started w t cmd).
Proof. reflexivity. Qed.

(** The loop body in terms of [normalize]. *)
Lemma run_tool_normalize t cmd w :
  run_tool cfg env (t, cmd) w
  = match normalize cfg env t (subprocess_run env cmd) (started w t cmd) with
    | (Ret text, w') => (Ret tt, recorded w' (mkRow t text))
    | (Raise e, w') => (Raise e, w')
    | (Exit c, w') => (Exit c, w')
    end.
Proof.
  rewrite run_tool_unfold. unfold normalize, bind.
  destruct (log_checking_codes _ _ _ _) as [[o | e | c] w1]; try reflexivity.
  destruct (clean cfg env t o w1) as [[o' | e | c] w2]; reflexivity.
Qed.

Lemma for_each_cons {A : Type} (x : A) (xs : list A) (body : A -> M unit) w :
  for_each (x :: xs) body w
  = match body x w with
    | (Ret _, w1) => for_each xs body w1
    | (Raise e, w1) => (Raise e, w1)
    | (Exit c, w1) => (Exit c, w1)
    end.
Proof. reflexivity. Qed.

(** How the loop ends: either it returns, with one row per tool in
    the order of the dict, or the body raises for some tool, and the
    rows are those of the tools before it. *)
Lemma for_each_outcome (cmds : list (string * list string)) :
  forall w,
    (exists w', for_each cmds (run_tool cfg env) w = (Ret tt, w')
                /\ map Tool (results w')
                   = (map Tool (results w) ++ PyVal.keys cmds)%list
                /\ dispatched w' = (dispatched w ++ map snd cmds)%list)
    \/ (exists e w' before t cmd after w1,
          for_each cmds (run_tool cfg env) w = (Raise e, w')
          /\ cmds = (before ++ (t, cmd) :: after)%list
          /\ run_tool cfg env (t, cmd) w1 = (Raise e, w')
          /\ map Tool (results w')
             = (map Tool (results w) ++ PyVal.keys before)%list
          /\ dispatched w'
             = (dispatched w ++ map snd before ++ [cmd])%list).
Proof.
  induction cmds as [| [t cmd] cmds IH]; intros w.
  - left. exists w. simpl. rewrite !app_nil_r. auto.
  - rewrite !for_each_cons.
    destruct (run_tool_cases cfg env t cmd w)
      as [(w1 & E & Hr & Hd) | (e & w1 & E & Hr & Hd)]; rewrite E.
    + destruct (IH w1) as [(w' & E' & Hr' & Hd')
                          | (e & w' & b & t' & c' & a & w2 & E' & Hc & Hx & Hr' & Hd')].
      * left. exists w'. rewrite E'. split; [reflexivity | ].
        rewrite Hr', Hr, Hd', Hd. simpl. rewrite <- !app_assoc. auto.
      * right. exists e, w', ((t, cmd) :: b), t', c', a, w2.
        rewrite E'. split; [reflexivity | ].
        rewrite Hc, Hr', Hr, Hd', Hd. simpl. rewrite <- !app_assoc. auto.
    + right. exists e, w1, [], t, cmd, cmds, w.
      split; [reflexivity | ]. rewrite Hr, Hd. simpl. rewrite app_nil_r. auto.
Qed.

(** The clean-up of the three text-only tools returns. *)
Lemma clean_pure_tools t output w :
  t <> "Whatweb" -> t <> "Ffuf" ->
  exists o, clean cfg env t output w = (Ret o, w).
Proof.
  intros H1 H2. unfold clean.
  apply String.eqb_neq in H1, H2. rewrite H1, H2.
  repeat match goal with |- context [if ?b then _ else _] => destruct b end;
    eexists; reflexivity.
Qed.

Lemma run_tool_pure_tools t cmd w :
  t <> "Whatweb" -> t <> "Ffuf" ->
  exists w', run_tool cfg env (t, cmd) w = (Ret tt, w').
Proof.
  intros H1 H2. rewrite run_tool_unfold. unfold bind at 1.
  destruct (log_checking_codes_returns t (subprocess_run env cmd)
              (stdout (subprocess_run env cmd)) (started w t cmd))
    as (o & lvl & msg & Ho).
  rewrite Ho. unfold bind.
  destruct (clean_pure_tools t o (logged (started w t cmd) [(lvl, msg)]) H1 H2)
    as (o' & Hc).
  rewrite Hc. eexists. reflexivity.
Qed.

(** Without the fingerprint and the content-discovery tool the loop
    always returns, with one row per tool. *)
Lemma loop_returns_for_pure_tools (cmds : list (string * list string)) :
  Forall (fun item => fst item <> "Whatweb" /\ fst item <> "Ffuf") cmds ->
  forall w, exists w',
    for_each cmds (run_tool cfg env) w = (Ret tt, w')
    /\ map Tool (results w') = (map Tool (results w) ++ PyVal.keys cmds)%list.
Proof.
  intros Hall w.
  destruct (for_each_outcome cmds w)
    as [(w' & E & Hr & _) | (e & w' & b & t & c & a & w1 & E & Hc & Hx & _)];
    [eauto | ].
  exfalso. subst cmds. apply Forall_app in Hall. destruct Hall as [_ Hall].
  inversion Hall as [| x l [H1 H2] _]; subst. simpl in H1, H2.
  destruct (run_tool_pure_tools t c w1 H1 H2) as (w2 & E2). congruence.
Qed.

(** The script after its two opening log records. *)
Lemma main_unfold :
  main cfg env initial_world
  = bind (filterCommands cfg) (fun cmds => for_each cmds (run_tool cfg env))
      (logged initial_world (preamble cfg)).
Proof. reflexivity. Qed.

(** A valid selection gives a dict without repeated keys. *)
Lemma filterCommands_nodup (w : World) :
  valid_selection (tools cfg) ->
  exists d, filterCommands cfg w = (Ret d, w) /\ NoDup (PyVal.keys d).
Proof.
  intros Hvalid. destruct (String.eqb (tools cfg) "all") eqn:E.
  - exists (commands cfg). unfold filterCommands. rewrite E. split; [reflexivity | ].
    rewrite keys_commands. unfold tool_ids.
    repeat constructor; simpl; intuition discriminate.
  - apply String.eqb_neq in E. destruct Hvalid as [Hs | Hok]; [contradiction | ].
    destruct (filterCommands_accepts cfg w E Hok) as (d & ks & Hf & _ & _ & Hk).
    exists d. split; [assumption | ]. rewrite Hk. apply first_mentions_from_NoDup.
Qed.

(** A whole run over a valid selection without the fingerprint and the
    content-discovery tool: the script returns, and the rows are those
    of the selected tools, in order, each once. *)
Lemma main_rows_for_pure_tools :
  valid_selection (tools cfg) ->
  exists d,
    filterCommands cfg (logged initial_world (preamble cfg))
    = (Ret d, logged initial_world (preamble cfg)) /\
    NoDup (PyVal.keys d) /\
    (Forall (fun item => fst item <> "Whatweb" /\ fst item <> "Ffuf") d ->
     exists w', main cfg env initial_world = (Ret tt, w')
                /\ map Tool (results w') = PyVal.keys d).
Proof.
  intros Hvalid.
  destruct (filterCommands_nodup (logged initial_world (preamble cfg)) Hvalid)
    as (d & Hf & Hnd).
  exists d. repeat split; auto. intros Hpure.
  destruct (loop_returns_for_pure_tools d Hpure (logged initial_world (preamble cfg)))
    as (w' & Hloop & Hrows).
  exists w'. split; [ | exact Hrows].
  rewrite main_unfold. unfold bind. now rewrite Hf.
Qed.

End Loop.

(* ------------------------------------------------------------------ *)
(** * Failures of a tool and of its clean-up *)

Section Failures.

Variable cfg : Config.
Variable env : Env.

(** Without a space [split(" ", 1)] has one field. *)
Lemma split1_without_space (s : string) :
  PyStr.contains " " s = false -> PyStr.split1 " " s = [s].
Proof.
  induction s as [| c s IH]; [reflexivity | ].
  cbn [PyStr.contains PyStr.startswith PyStr.split1].
  rewrite (Ascii.eqb_sym " " c).
  destruct (Ascii.eqb c " "); cbn [andb orb]; [destruct s; discriminate | ].
  intros H. now rewrite (IH H).
Qed.

(** Without a space there is no field 1 to take. *)
Lemma clean_whatweb_without_space (output : string) :
  PyStr.contains " " output = false -> clean_whatweb output = inl IndexError.
Proof.
  intros H. unfold clean_whatweb. now rewrite (split1_without_space _ H).
Qed.

(** C2.  The fingerprint clean-up takes field 1 of
    [output.split(" ", 1)].  When the tool exits with code 0 and its
    trimmed output has no space (it is empty, or a single token), there
    is no such field: normalization ends in an uncaught [IndexError]
    and returns no text. *)
Theorem whatweb_without_space_raises (result : CompletedProcess) (w : World) :
  returncode result = 0%Z ->
  PyStr.contains " " (PyStr.strip (stdout result)) = false ->
  normalize cfg env "Whatweb" result w
  = (Raise IndexError, logged w [(INFO, "Whatweb executed successfully.")]).
Proof.
  intros Hrc Hsp. unfold normalize, bind.
  rewrite (log_checking_codes_zero _ _ _ _ Hrc).
  unfold clean. simpl.
  now rewrite (clean_whatweb_without_space _ Hsp).
Qed.

(** C8.  After a nonzero exit code of the fingerprint tool,
    [log_checking_codes] logs the failure and returns the payload
    "Error: " followed by the trimmed output; the clean-up branch then
    removes the first token of that payload, which is the marker.  The
    recorded text is the trimmed raw output, as after a success. *)
Theorem whatweb_failure_loses_error_marker (result : CompletedProcess) (w : World) :
  returncode result <> 0%Z ->
  normalize cfg env "Whatweb" result w
  = (Ret (PyStr.strip (stdout result)),
     logged w [(ERROR, "Whatweb failed with exit code "
                       ++ PyStr.of_int (returncode result))]).
Proof.
  intros Hrc. unfold normalize, bind.
  rewrite (log_checking_codes_nonzero _ _ _ _ Hrc); [ | discriminate].
  unfold clean. simpl. now rewrite PyStrFacts.strip_idem.
Qed.

(** C1.  [get_ffuf_results] opens and parses the file without a
    handler.  When the file is absent or malformed, the loop body for
    the content-discovery tool raises: no row is recorded for it, and
    the tools after it are never run. *)
Theorem ffuf_unreadable_file_aborts (cmd : list string)
        (rest : list (string * list string)) (w : World) :
  ffuf_result_json env = FileAbsent \/ ffuf_result_json env = FileMalformed ->
  exists e w',
    for_each (("Ffuf", cmd) :: rest) (run_tool cfg env) w = (Raise e, w') /\
    (e = FileNotFoundError \/ e = JSONDecodeError) /\
    results w' = results w /\
    dispatched w' = (dispatched w ++ [cmd])%list.
Proof.
  intros Hfile. rewrite for_each_cons, run_tool_unfold. unfold bind at 1.
  destruct (log_checking_codes_returns "Ffuf" (subprocess_run env cmd)
              (stdout (subprocess_run env cmd)) (started w "Ffuf" cmd))
    as (o & lvl & msg & Ho).
  rewrite Ho. unfold bind, clean, clean_ffuf, get_ffuf_results, bind. simpl.
  destruct Hfile as [E | E]; rewrite E; simpl; eauto 8.
Qed.

(** C10.  With a readable structured file and a failed wildcard probe
    the content-discovery text is what [log_checking_codes] returned,
    trimmed: after exit code 0 the captured console output, otherwise
    that output behind the error marker.  The findings of the file do
    not enter the text. *)
Theorem ffuf_without_baseline_keeps_console_output
        (result : CompletedProcess) (data findings : json) (e : string) (w : World) :
  ffuf_result_json env = FileJson data ->
  PyVal.get_or_empty_list data "results" = inr findings ->
  requests_get env (url cfg ++ "/zz_fake_wildcard_check_path_999") = inr e ->
  exists lvl msg,
    normalize cfg env "Ffuf" result w
    = (Ret (if Z.eqb (returncode result) 0
            then PyStr.strip (stdout result)
            else PyStr.strip ("Error: " ++ PyStr.strip (stdout result))),
       logged w [(lvl, msg);
                 (WARNING, "[Ffuf] Wildcard detection failed: " ++ e)]).
Proof.
  intros Hfile Hres Hprobe. unfold normalize, bind.
  destruct (Z.eqb (returncode result) 0) eqn:Hrc.
  - apply Z.eqb_eq in Hrc. rewrite (log_checking_codes_zero _ _ _ _ Hrc).
    unfold clean, clean_ffuf, get_ffuf_results, get_wildcard_length, bind. simpl.
    rewrite Hfile, Hres. simpl. rewrite Hprobe. simpl.
    rewrite PyStrFacts.strip_idem. unfold logged. simpl.
    rewrite <- app_assoc. do 2 eexists. reflexivity.
  - apply Z.eqb_neq in Hrc.
    rewrite (log_checking_codes_nonzero _ _ _ _ Hrc); [ | discriminate].
    unfold clean, clean_ffuf, get_ffuf_results, get_wildcard_length, bind. simpl.
    rewrite Hfile, Hres. simpl. rewrite Hprobe. simpl.
    unfold logged. simpl. rewrite <- app_assoc. do 2 eexists. reflexivity.
Qed.

(** C3.  When the fingerprint tool is selected before the service
    scan, exits with code 0 and prints a text without a space, the
    script ends in an uncaught [IndexError]: the selected identifiers
    are Whatweb and Nmap, no row is recorded, and the service scan is
    never run. *)
Theorem whatweb_raise_leaves_rows_missing :
  tools cfg = "whatweb,nmap" ->
  returncode (subprocess_run env ["whatweb"; url cfg]) = 0%Z ->
  PyStr.contains " " (PyStr.strip (stdout (subprocess_run env ["whatweb"; url cfg])))
  = false ->
  (exists d, filterCommands cfg (logged initial_world (preamble cfg))
             = (Ret d, logged initial_world (preamble cfg))
             /\ PyVal.keys d = ["Whatweb"; "Nmap"]) /\
  (exists w', main cfg env initial_world = (Raise IndexError, w')
              /\ results w' = []
              /\ dispatched w' = [["whatweb"; url cfg]]).
Proof.
  intros Htools Hrc Hsp.
  assert (Hf : forall w, filterCommands cfg w
               = (Ret [("Whatweb", ["whatweb"; url cfg]);
                       ("Nmap", ["nmap"; "-sV"; "-p"; ports cfg; target_ip cfg])], w)).
  { intros w. unfold filterCommands. rewrite Htools. reflexivity. }
  split.
  - eexists. split; [apply Hf | reflexivity].
  - unfold main, bind at 1 2 3. simpl. rewrite Hf.
    rewrite for_each_cons, run_tool_unfold. unfold bind at 1.
    rewrite (log_checking_codes_zero _ _ _ _ Hrc).
    unfold bind at 1, clean. simpl.
    rewrite (clean_whatweb_without_space _ Hsp).
    eexists. split; [reflexivity | ]. simpl. auto.
Qed.

End Failures.

(* ------------------------------------------------------------------ *)
(** * The vuln-scan clean-up *)

Section Nikto.
Import PyStr PyStrFacts.

Lemma seen_of_snoc seen earlier line :
  seen_of seen earlier ->
  seen_of (fst (nikto_step (seen, []) line)) (earlier ++ [line]).
Proof.
  intros Hinv b. rewrite existsb_app. cbn [existsb]. rewrite orb_false_r.
  rewrite <- Hinv.
  unfold nikto_step, filed_under, nikto_finding, nikto_key.
  destruct (nikto_skipped line); cbn [negb andb fst]; [now rewrite orb_false_r | ].
  destruct (nikto_path line) as [path | ]; [ | cbn [fst]; now rewrite orb_false_r].
  destruct (negb (String.eqb path "")); [ | cbn [fst]; now rewrite orb_false_r].
  destruct (str_in (nikto_basename path) seen) eqn:E; cbn [fst].
  - destruct (String.eqb_spec b (nikto_basename path)) as [-> | _].
    + rewrite E. reflexivity.
    + now rewrite orb_false_r.
  - unfold str_in at 1. cbn [existsb]. fold (str_in b seen). apply orb_comm.
Qed.

Lemma nikto_step_snd seen acc earlier line :
  seen_of seen earlier ->
  nikto_step (seen, acc) line
  = (fst (nikto_step (seen, []) line),
     (acc ++ (if retained_after earlier line then [strip line] else []))%list).
Proof.
  intros Hinv. unfold nikto_step, retained_after, nikto_finding, nikto_key.
  destruct (nikto_skipped line); cbn [negb andb fst]; [now rewrite app_nil_r | ].
  destruct (nikto_path line) as [path | ]; [ | reflexivity].
  destruct (negb (String.eqb path "")); [ | reflexivity].
  rewrite <- Hinv.
  destruct (str_in (nikto_basename path) seen); cbn [negb fst];
    [now rewrite app_nil_r | reflexivity].
Qed.

Lemma nikto_fold (lines : list string) :
  forall seen acc earlier,
    seen_of seen earlier ->
    snd (fold_left nikto_step lines (seen, acc))
    = (acc ++ keep_first_from earlier lines)%list.
Proof.
  induction lines as [| line lines IH]; intros seen acc earlier Hinv.
  - cbn. now rewrite app_nil_r.
  - cbn [fold_left keep_first_from].
    rewrite (nikto_step_snd seen acc earlier line Hinv).
    rewrite (IH _ _ (earlier ++ [line])%list (seen_of_snoc _ _ line Hinv)).
    destruct (retained_after earlier line).
    + now rewrite <- app_assoc.
    + now rewrite app_nil_r.
Qed.

Lemma nikto_lines_spec (lines : list string) :
  nikto_lines lines = keep_first_by_basename lines.
Proof.
  unfold nikto_lines, keep_first_by_basename.
  rewrite (nikto_fold lines [] [] []); [reflexivity | ].
  intros b. reflexivity.
Qed.




(** Only finding lines are kept, each trimmed. *)
Lemma keep_first_from_In (lines : list string) :
  forall earlier x, In x (keep_first_from earlier lines) ->
    exists l, In l lines /\ x = strip l /\ nikto_finding l = true.
Proof.
  induction lines as [| line lines IH]; intros earlier x; [intros [] | ].
  cbn [keep_first_from].
  destruct (retained_after earlier line) eqn:E.
  - intros [<- | H].
    + exists line. repeat split; [now left | ].
      unfold retained_after in E. now apply andb_prop in E.
    + destruct (IH _ _ H) as (l & Hl & Hx & Hf). exists l. repeat split; auto.
      now right.
  - intros H. destruct (IH _ _ H) as (l & Hl & Hx & Hf). exists l.
    repeat split; auto. now right.
Qed.


(** The text the branch returns is the kept lines joined by LF. *)
Lemma clean_nikto_spec (output : string) :
  clean_nikto output = join nl (keep_first_by_basename (splitlines output)).
Proof. unfold clean_nikto. now rewrite nikto_lines_spec. Qed.

End Nikto.

(* ------------------------------------------------------------------ *)
(** * Normalizing again *)

Section Idempotence.
Import PyStr PyStrFacts.

Lemma nmap_banner_app (l z : string) :
  nmap_banner l = true -> nmap_banner (l ++ z) = true.
Proof.
  unfold nmap_banner. intros H.
  repeat (apply orb_prop in H; destruct H as [H | H]);
    rewrite (startswith_app _ z _ H); repeat rewrite orb_true_r; reflexivity.
Qed.

Lemma nmap_banner_first_line (t : string) :
  nmap_banner (hd "" (splitlines t)) = nmap_banner t.
Proof.
  unfold nmap_banner. now rewrite !startswith_first_line.
Qed.

Lemma nmap_kept_free (x : string) :
  Forall (fun l => all_chars not_break l = true) (nmap_kept x).
Proof.
  apply Forall_forall. intros l H. apply filter_In in H. destruct H as [H _].
  exact (splitlines_line_free _ _ _ H).
Qed.

(** A cleaned service-scan text that does not begin with a banner
    prefix has no banner line at all. *)
Lemma clean_nmap_lines (x : string) (l : string) :
  nmap_banner (clean_nmap x) = false ->
  In l (splitlines (clean_nmap x)) -> nmap_banner l = false.
Proof.
  intros Hhead Hl.
  destruct (splitlines (clean_nmap x)) as [| l0 rest] eqn:E; [contradiction | ].
  destruct Hl as [<- | Hl].
  - pose proof (nmap_banner_first_line (clean_nmap x)) as Hf.
    rewrite E in Hf. cbn [hd] in Hf. congruence.
  - assert (Hx : In l (tl (splitlines (clean_nmap x)))) by (rewrite E; exact Hl).
    unfold clean_nmap in Hx. fold (nmap_kept x) in Hx.
    rewrite strip_lstrip_rstrip in Hx.
    apply (splitlines_lstrip_tail _ false) in Hx.
    apply incl_tl_self in Hx. apply splitlines_rstrip in Hx.
    destruct Hx as [z Hz].
    apply (splitlines_join_incl _ (nmap_kept_free x)) in Hz.
    apply filter_In in Hz. destruct Hz as [_ Hz].
    apply negb_true_iff in Hz.
    destruct (nmap_banner l) eqn:Eb; [ | reflexivity].
    now rewrite (nmap_banner_app _ z Eb) in Hz.
Qed.

Lemma clean_nmap_fixed (x : string) :
  nmap_banner (clean_nmap x) = false ->
  clean_nmap (clean_nmap x) = clean_nmap x.
Proof.
  intros Hhead. set (t := clean_nmap x) in *.
  unfold clean_nmap at 1.
  rewrite filter_all.
  2:{ intros l Hl. apply negb_true_iff. exact (clean_nmap_lines x l Hhead Hl). }
  assert (Hr : rstrip t = t) by apply rstrip_strip.
  assert (Hp : all_chars plain_or_lf t = true).
  { apply all_chars_strip, join_plain_or_lf, (nmap_kept_free x). }
  rewrite (join_splitlines t Hp Hr).
  unfold t, clean_nmap. apply PyStrFacts.strip_idem.
Qed.

Lemma strip_clean_nmap (x : string) : strip (clean_nmap x) = clean_nmap x.
Proof. unfold clean_nmap. apply PyStrFacts.strip_idem. Qed.

Lemma waf_verdict_strip (l : string) :
  waf_verdict l = true -> waf_verdict (strip l) = true.
Proof.
  unfold waf_verdict. intros H. apply orb_prop in H. destruct H as [H | H].
  - rewrite (contains_strip "No WAF detected" l eq_refl eq_refl H). reflexivity.
  - rewrite (contains_strip "is behind" l eq_refl eq_refl H). apply orb_true_r.
Qed.

Lemma waf_verdict_nonempty (l : string) : waf_verdict l = true -> l <> "".
Proof. intros H ->. discriminate. Qed.

(** The WAF clean-up followed by [strip] gives a text that the
    clean-up leaves as it is. *)
Lemma clean_wafwoof_fixed (x : string) :
  strip x = x ->
  clean_wafwoof (strip (clean_wafwoof x)) = strip (clean_wafwoof x).
Proof.
  intros Hx. unfold clean_wafwoof at 2 3.
  destruct (find waf_verdict (splitlines x)) as [l | ] eqn:E.
  - apply find_some in E. destruct E as [Hin Hv].
    assert (Hv' := waf_verdict_strip l Hv).
    assert (Hfree : all_chars not_break (strip l) = true).
    { apply all_chars_strip. exact (splitlines_line_free _ _ _ Hin). }
    unfold clean_wafwoof.
    rewrite (splitlines_single _ (waf_verdict_nonempty _ Hv') Hfree).
    cbn [find]. now rewrite Hv'.
  - rewrite Hx. unfold clean_wafwoof. now rewrite E.
Qed.

Lemma strip_waf_text (raw : string) : strip (waf_text raw) = waf_text raw.
Proof. unfold waf_text. apply strip_idem. Qed.

Lemma waf_text_idem (raw : string) : waf_text (waf_text raw) = waf_text raw.
Proof.
  unfold waf_text at 1. rewrite strip_waf_text. unfold waf_text.
  rewrite (clean_wafwoof_fixed (strip raw) (strip_idem raw)). apply strip_idem.
Qed.

Lemma nmap_text_eq (raw : string) : nmap_text raw = clean_nmap (strip raw).
Proof. unfold nmap_text. apply strip_clean_nmap. Qed.

Lemma nmap_text_idem (raw : string) :
  nmap_banner (nmap_text raw) = false -> nmap_text (nmap_text raw) = nmap_text raw.
Proof.
  intros H. rewrite (nmap_text_eq (nmap_text raw)).
  rewrite (nmap_text_eq raw) in *. rewrite strip_clean_nmap.
  now apply clean_nmap_fixed.
Qed.

Variable cfg : Config.
Variable env : Env.

Lemma normalize_wafwoof_zero (raw : string) (w : World) :
  normalize cfg env "Wafwoof" (mkCompleted 0 raw) w
  = (Ret (waf_text raw), logged w [(INFO, "Wafwoof executed successfully.")]).
Proof.
  unfold normalize, bind. now rewrite log_checking_codes_zero.
Qed.

Lemma normalize_nmap_zero (raw : string) (w : World) :
  normalize cfg env "Nmap" (mkCompleted 0 raw) w
  = (Ret (nmap_text raw), logged w [(INFO, "Nmap executed successfully.")]).
Proof.
  unfold normalize, bind. now rewrite log_checking_codes_zero.
Qed.

(** C4, as amended.  After exit code 0 the WAF-detect normalization
    returns a text that the same normalization returns unchanged.  The
    service-scan normalization does so whenever the text it returns
    does not begin with one of the banner prefixes it drops. *)
Theorem waf_and_service_scan_renormalize :
  (forall raw w,
      normalize cfg env "Wafwoof" (mkCompleted 0 raw) w
      = (Ret (waf_text raw), logged w [(INFO, "Wafwoof executed successfully.")])
      /\ normalize cfg env "Wafwoof" (mkCompleted 0 (waf_text raw)) w
         = (Ret (waf_text raw), logged w [(INFO, "Wafwoof executed successfully.")]))
  /\ (forall raw w,
         normalize cfg env "Nmap" (mkCompleted 0 raw) w
         = (Ret (nmap_text raw), logged w [(INFO, "Nmap executed successfully.")])
         /\ (nmap_banner (nmap_text raw) = false ->
             normalize cfg env "Nmap" (mkCompleted 0 (nmap_text raw)) w
             = (Ret (nmap_text raw),
                logged w [(INFO, "Nmap executed successfully.")]))).
Proof.
  split; intros raw w; (split; [first [apply normalize_wafwoof_zero
                                      | apply normalize_nmap_zero] | ]).
  - rewrite normalize_wafwoof_zero. now rewrite waf_text_idem.
  - intros H. rewrite normalize_nmap_zero. now rewrite (nmap_text_idem raw H).
Qed.

End Idempotence.

(* ------------------------------------------------------------------ *)
(** * The statements on concrete runs *)

Section Examples.
Import PyStr.

(** The fingerprint normalization is not stable: the text it returns
    for the output of the specification's example loses one more
    token when it is normalized again. *)
Lemma fingerprint_renormalizing_strips_again :
  normalize (example_config "all") (example_env 0 "" FileAbsent) "Whatweb"
            (mkCompleted 0 "http://x.com WhatWeb output") initial_world
  = (Ret "WhatWeb output",
     logged initial_world [(INFO, "Whatweb executed successfully.")])
  /\ normalize (example_config "all") (example_env 0 "" FileAbsent) "Whatweb"
               (mkCompleted 0 "WhatWeb output") initial_world
     = (Ret "output",
        logged initial_world [(INFO, "Whatweb executed successfully.")])
  /\ ~ renormalizes_unchanged "Whatweb".
Proof.
  split; [reflexivity | split; [reflexivity | ]].
  intros H.
  destruct (H (example_config "all") (example_env 0 "" FileAbsent)
              "http://x.com WhatWeb output" initial_world
              "WhatWeb output" _ eq_refl) as [w2 Hw2].
  discriminate Hw2.
Qed.

(** Trimming can bring a banner prefix to the front of a service-scan
    text; normalizing again then drops that line. *)
Example nmap_trim_exposes_banner :
  nmap_text ("Starting Nmap 7.94" ++ nl ++ "  Host is up (0.01s latency).")
  = "Host is up (0.01s latency)."
  /\ nmap_text "Host is up (0.01s latency)." = "".
Proof. split; reflexivity. Qed.

Lemma unknown_tool_is_fatal_witness :
  tools (example_config "nmap,foo") <> "all"
  /\ (exists name, In name (requested_names (tools (example_config "nmap,foo")))
                   /\ is_allowed name = false)
  /\ exists w',
       main (example_config "nmap,foo") (example_env 0 "" FileAbsent) initial_world
       = (Exit 1, w') /\
       dispatched w' = [] /\
       results w' = [] /\
       log w' = (preamble (example_config "nmap,foo")
                 ++ [(ERROR, invalid_message
                               (offending (tools (example_config "nmap,foo"))))])%list /\
       (forall name,
           In name (requested_names (tools (example_config "nmap,foo"))) ->
           is_allowed name = false ->
           In name (offending (tools (example_config "nmap,foo")))).
Proof.
  assert (H1 : tools (example_config "nmap,foo") <> "all") by discriminate.
  assert (H2 : exists name,
             In name (requested_names (tools (example_config "nmap,foo")))
             /\ is_allowed name = false).
  { exists "foo". split; [simpl; auto | reflexivity]. }
  split; [exact H1 | split; [exact H2 | ]].
  exact (unknown_tool_is_fatal (example_config "nmap,foo")
           (example_env 0 "" FileAbsent) H1 H2).
Defined.

Lemma selection_keeps_callers_order_witness :
  valid_selection (tools (example_config "nmap,NIKTO"))
  /\ exists d,
       filterCommands (example_config "nmap,NIKTO") initial_world
       = (Ret d, initial_world) /\
       incl d (commands (example_config "nmap,NIKTO")) /\
       (tools (example_config "nmap,NIKTO") = "all" ->
        d = commands (example_config "nmap,NIKTO") /\ PyVal.keys d = tool_ids) /\
       (tools (example_config "nmap,NIKTO") <> "all" ->
        exists ks,
          map registry_key (requested_names (tools (example_config "nmap,NIKTO")))
          = map Some ks /\
          PyVal.keys d = first_mentions ks /\
          (NoDup ks -> PyVal.keys d = ks)).
Proof.
  assert (H : valid_selection (tools (example_config "nmap,NIKTO"))).
  { right. repeat constructor. }
  split; [exact H | ].
  exact (selection_keeps_callers_order (example_config "nmap,NIKTO")
           initial_world H).
Defined.

Lemma sentinel_is_exact_witness :
  tools (example_config "ALL") <> "all"
  /\ (exists name, In name (requested_names (tools (example_config "ALL")))
                   /\ lower (strip name) = "all")
  /\ In (tools (example_config "ALL")) ["ALL"; "All"; "all,nmap"]
  /\ (exists w',
         main (example_config "ALL") (example_env 0 "" FileAbsent) initial_world
         = (Exit 1, w') /\
         dispatched w' = [] /\
         results w' = [] /\
         log w' = (preamble (example_config "ALL")
                   ++ [(ERROR, invalid_message
                                 (offending (tools (example_config "ALL"))))])%list /\
         In "all" (map (fun n => lower (strip n))
                       (offending (tools (example_config "ALL")))))
  /\ main (example_config "ALL") (example_env 0 "" FileAbsent) initial_world
     = (Exit 1,
        mkWorld (preamble (example_config "ALL")
                 ++ [(ERROR, "Invalid tool(s) specified: all")]) [] []).
Proof.
  assert (H1 : tools (example_config "ALL") <> "all") by discriminate.
  assert (H2 : exists name,
             In name (requested_names (tools (example_config "ALL")))
             /\ lower (strip name) = "all").
  { exists "ALL". split; [simpl; auto | reflexivity]. }
  assert (H3 : In (tools (example_config "ALL")) ["ALL"; "All"; "all,nmap"]).
  { simpl. auto. }
  pose proof (sentinel_is_exact (example_config "ALL")
                (example_env 0 "" FileAbsent)) as [_ [Ha Hb]].
  split; [exact H1 | split; [exact H2 | split; [exact H3 | split]]].
  - exact (Ha H1 H2).
  - exact (Hb H3).
Defined.

Lemma ffuf_unreadable_file_aborts_witness :
  (ffuf_result_json (example_env 0 "" FileAbsent) = FileAbsent
   \/ ffuf_result_json (example_env 0 "" FileAbsent) = FileMalformed)
  /\ exists e w',
       for_each [("Ffuf", ["ffuf"]); ("Nikto", ["nikto"])]
                (run_tool (example_config "all") (example_env 0 "" FileAbsent))
                initial_world
       = (Raise e, w') /\
       (e = FileNotFoundError \/ e = JSONDecodeError) /\
       results w' = results initial_world /\
       dispatched w' = (dispatched initial_world ++ [["ffuf"]])%list.
Proof.
  assert (H : ffuf_result_json (example_env 0 "" FileAbsent) = FileAbsent
              \/ ffuf_result_json (example_env 0 "" FileAbsent) = FileMalformed).
  { left. reflexivity. }
  split; [exact H | ].
  exact (ffuf_unreadable_file_aborts (example_config "all")
           (example_env 0 "" FileAbsent) ["ffuf"] [("Nikto", ["nikto"])]
           initial_world H).
Defined.

Lemma whatweb_without_space_raises_witness :
  returncode (mkCompleted 0 "abc") = 0%Z
  /\ contains " " (strip (stdout (mkCompleted 0 "abc"))) = false
  /\ normalize (example_config "all") (example_env 0 "abc" FileAbsent) "Whatweb"
               (mkCompleted 0 "abc") initial_world
     = (Raise IndexError,
        logged initial_world [(INFO, "Whatweb executed successfully.")]).
Proof.
  split; [reflexivity | split; [reflexivity | ]].
  exact (whatweb_without_space_raises (example_config "all")
           (example_env 0 "abc" FileAbsent) (mkCompleted 0 "abc") initial_world
           eq_refl eq_refl).
Defined.

Lemma whatweb_failure_loses_error_marker_witness :
  returncode (mkCompleted 1 "boom") <> 0%Z
  /\ normalize (example_config "all") (example_env 1 "boom" FileAbsent) "Whatweb"
               (mkCompleted 1 "boom") initial_world
     = (Ret (strip (stdout (mkCompleted 1 "boom"))),
        logged initial_world
               [(ERROR, "Whatweb failed with exit code "
                        ++ of_int (returncode (mkCompleted 1 "boom")))]).
Proof.
  assert (H : returncode (mkCompleted 1 "boom") <> 0%Z) by discriminate.
  split; [exact H | ].
  exact (whatweb_failure_loses_error_marker (example_config "all")
           (example_env 1 "boom" FileAbsent) (mkCompleted 1 "boom")
           initial_world H).
Defined.

Lemma whatweb_raise_leaves_rows_missing_witness :
  tools (example_config "whatweb,nmap") = "whatweb,nmap"
  /\ returncode (subprocess_run (example_env 0 "" FileAbsent)
                                ["whatweb"; url (example_config "whatweb,nmap")])
     = 0%Z
  /\ contains " "
       (strip (stdout (subprocess_run (example_env 0 "" FileAbsent)
                         ["whatweb"; url (example_config "whatweb,nmap")])))
     = false
  /\ (exists d,
         filterCommands (example_config "whatweb,nmap")
                        (logged initial_world (preamble (example_config "whatweb,nmap")))
         = (Ret d, logged initial_world (preamble (example_config "whatweb,nmap")))
         /\ PyVal.keys d = ["Whatweb"; "Nmap"])
  /\ (exists w',
         main (example_config "whatweb,nmap") (example_env 0 "" FileAbsent)
              initial_world
         = (Raise IndexError, w')
         /\ results w' = []
         /\ dispatched w' = [["whatweb"; url (example_config "whatweb,nmap")]]).
Proof.
  split; [reflexivity | split; [reflexivity | split; [reflexivity | ]]].
  exact (whatweb_raise_leaves_rows_missing (example_config "whatweb,nmap")
           (example_env 0 "" FileAbsent) eq_refl eq_refl eq_refl).
Defined.

Lemma ffuf_without_baseline_keeps_console_output_witness :
  ffuf_result_json
    (example_env 0 "admin [Status: 200]"
       (FileJson (JDict [("results", JList [JDict [("length", JInt 12)]])])))
  = FileJson (JDict [("results", JList [JDict [("length", JInt 12)]])])
  /\ PyVal.get_or_empty_list
       (JDict [("results", JList [JDict [("length", JInt 12)]])]) "results"
     = inr (JList [JDict [("length", JInt 12)]])
  /\ requests_get
       (example_env 0 "admin [Status: 200]"
          (FileJson (JDict [("results", JList [JDict [("length", JInt 12)]])])))
       (url (example_config "ffuf") ++ "/zz_fake_wildcard_check_path_999")
     = inr "timed out"
  /\ exists lvl msg,
       normalize (example_config "ffuf")
         (example_env 0 "admin [Status: 200]"
            (FileJson (JDict [("results", JList [JDict [("length", JInt 12)]])])))
         "Ffuf" (mkCompleted 0 " admin [Status: 200] ") initial_world
       = (Ret (if Z.eqb (returncode (mkCompleted 0 " admin [Status: 200] ")) 0
               then strip (stdout (mkCompleted 0 " admin [Status: 200] "))
               else strip ("Error: "
                           ++ strip (stdout (mkCompleted 0 " admin [Status: 200] ")))),
          logged initial_world
                 [(lvl, msg);
                  (WARNING, "[Ffuf] Wildcard detection failed: " ++ "timed out")]).
Proof.
  split; [reflexivity | split; [reflexivity | split; [reflexivity | ]]].
  exact (ffuf_without_baseline_keeps_console_output (example_config "ffuf")
           (example_env 0 "admin [Status: 200]"
              (FileJson (JDict [("results", JList [JDict [("length", JInt 12)]])])))
           (mkCompleted 0 " admin [Status: 200] ")
           (JDict [("results", JList [JDict [("length", JInt 12)]])])
           (JList [JDict [("length", JInt 12)]])
           "timed out" initial_world eq_refl eq_refl eq_refl).
Defined.

Lemma waf_and_service_scan_renormalize_witness :
  nmap_banner
    (nmap_text ("Starting Nmap 7.94" ++ nl ++ "80/tcp open http nginx" ++ nl
                ++ "Nmap done: 1 IP address (1 host up)"))
  = false
  /\ normalize (example_config "nmap") (example_env 0 "" FileAbsent) "Nmap"
       (mkCompleted 0
          (nmap_text ("Starting Nmap 7.94" ++ nl ++ "80/tcp open http nginx" ++ nl
                      ++ "Nmap done: 1 IP address (1 host up)")))
       initial_world
     = (Ret (nmap_text ("Starting Nmap 7.94" ++ nl ++ "80/tcp open http nginx" ++ nl
                        ++ "Nmap done: 1 IP address (1 host up)")),
        logged initial_world [(INFO, "Nmap executed successfully.")]).
Proof.
  assert (H : nmap_banner
                (nmap_text ("Starting Nmap 7.94" ++ nl ++ "80/tcp open http nginx"
                            ++ nl ++ "Nmap done: 1 IP address (1 host up)"))
              = false) by reflexivity.
  split; [exact H | ].
  exact (proj2 (proj2 (waf_and_service_scan_renormalize
                         (example_config "nmap") (example_env 0 "" FileAbsent))
                  ("Starting Nmap 7.94" ++ nl ++ "80/tcp open http nginx" ++ nl
                   ++ "Nmap done: 1 IP address (1 host up)")
                  initial_world) H).
Defined.

End Examples.

(* ------------------------------------------------------------------ *)
(** * More about the script *)

Section WildcardFilter.

Lemma filter_items_all_readable (items : list json) (wl : Z) :
  Forall (fun r => exists len, PyVal.subscript r "length" = inr len) items ->
  filter_items items wl = inr (filter (differs_from wl) items).
Proof.
  induction 1 as [| r items [len Hlen] _ IH]; [reflexivity | ].
  cbn [filter_items filter]. unfold differs_from at 1. rewrite Hlen, IH.
  cbn [bindE]. destruct (PyVal.ne_int len wl); reflexivity.
Qed.

(** X1.  On items whose length can be read, [filter_by_length] returns
    the items whose length differs from the wildcard length, in their
    order: no item of that integer length is left, and every item of
    another integer length stays. *)
Theorem filter_by_length_drops_baseline_length (items : list json) (wl : Z) :
  Forall (fun r => exists len, PyVal.subscript r "length" = inr len) items ->
  filter_by_length (JList items) wl = inr (filter (differs_from wl) items)
  /\ (forall r, In r (filter (differs_from wl) items) ->
                In r items /\ PyVal.subscript r "length" <> inr (JInt wl))
  /\ (forall r len, In r items -> PyVal.subscript r "length" = inr (JInt len) ->
                    len <> wl -> In r (filter (differs_from wl) items)).
Proof.
  intros Hall. split; [ | split].
  - unfold filter_by_length. cbn [PyVal.iterate bindE].
    now apply filter_items_all_readable.
  - intros r Hr. apply filter_In in Hr. destruct Hr as [Hin Hd]. split; [assumption | ].
    intros E. unfold differs_from in Hd. rewrite E in Hd. cbn in Hd.
    rewrite Z.eqb_refl in Hd. discriminate.
  - intros r len Hin Hlen Hne. apply filter_In. split; [assumption | ].
    unfold differs_from. rewrite Hlen. cbn. apply negb_true_iff. now apply Z.eqb_neq.
Qed.

(** X2.  [filter_by_length] raises at the first item whose length cannot
    be read, whatever comes after it: [KeyError] with the key for a dict
    without the key, [TypeError] for a value that is no dict. *)
Theorem filter_by_length_raises_at_first_unreadable
        (good rest : list json) (bad : json) (wl : Z) :
  Forall (fun r => exists len, PyVal.subscript r "length" = inr len) good ->
  (forall entries,
      bad = JDict entries -> PyVal.lookup "length" entries = None ->
      filter_by_length (JList (good ++ bad :: rest)) wl = inl (KeyError "length"))
  /\ (is_dict bad = false ->
      filter_by_length (JList (good ++ bad :: rest)) wl = inl TypeError).
Proof.
  intros Hgood.
  assert (Hraise : forall e, PyVal.subscript bad "length" = inl e ->
                             filter_by_length (JList (good ++ bad :: rest)) wl = inl e).
  { intros e Hbad. unfold filter_by_length. cbn [PyVal.iterate bindE].
    induction Hgood as [| r good [len Hlen] _ IH].
    - cbn [app filter_items]. now rewrite Hbad.
    - cbn [app filter_items]. rewrite Hlen, IH. reflexivity. }
  split.
  - intros entries -> Hnone. apply Hraise.
    unfold PyVal.subscript. now rewrite Hnone.
  - intros Hd. apply Hraise. destruct bad; try reflexivity. discriminate.
Qed.

Lemma filter_items_fixed (items : list json) (wl : Z) :
  forall kept, filter_items items wl = inr kept -> filter_items kept wl = inr kept.
Proof.
  induction items as [| r items IH]; intros kept.
  - cbn. intros H. inversion H. reflexivity.
  - cbn [filter_items].
    destruct (PyVal.subscript r "length") as [e | len] eqn:El; cbn [bindE]; [discriminate | ].
    destruct (filter_items items wl) as [e | kept'] eqn:Ek; cbn [bindE]; [discriminate | ].
    specialize (IH kept' eq_refl).
    destruct (PyVal.ne_int len wl) eqn:En; intros H; inversion H; subst kept.
    + cbn [filter_items]. rewrite El, IH. cbn [bindE]. now rewrite En.
    + exact IH.
Qed.

(** X3.  What [filter_by_length] returns is left as it is when it is
    filtered again with the same wildcard length. *)
Theorem filter_by_length_twice (v : json) (wl : Z) (kept : list json) :
  filter_by_length v wl = inr kept ->
  filter_by_length (JList kept) wl = inr kept.
Proof.
  unfold filter_by_length.
  destruct (PyVal.iterate v) as [e | items]; cbn [bindE]; [discriminate | ].
  cbn [PyVal.iterate]. apply filter_items_fixed.
Qed.

End WildcardFilter.

Section Ffuf.

Variable cfg : Config.
Variable env : Env.

Lemma describes_readable (r : json) (f : Finding) :
  describes r f -> exists len, PyVal.subscript r "length" = inr len.
Proof. intros (_ & _ & H & _). eauto. Qed.

Lemma describes_differs (r : json) (f : Finding) (wl : Z) :
  describes r f -> differs_from wl r = negb (Z.eqb (f_length f) wl).
Proof. intros (_ & _ & H & _). unfold differs_from. now rewrite H. Qed.

Lemma format_finding_described (r : json) (f : Finding) :
  describes r f -> format_finding r = inr (rendered f).
Proof.
  intros ((input & Hi & Hf) & Hs & Hl & Hw & Hn).
  unfold format_finding. rewrite Hi. cbn [bindE]. rewrite Hf. cbn [bindE].
  rewrite Hs. cbn [bindE]. rewrite Hl. cbn [bindE]. rewrite Hw. cbn [bindE].
  rewrite Hn. cbn [bindE]. reflexivity.
Qed.

(** The filter and the rendering on described items. *)
Lemma render_filtered (items : list json) (fs : list Finding) (wl : Z) :
  Forall2 describes items fs ->
  format_findings (filter (differs_from wl) items)
  = inr (map rendered (filter (fun f => negb (Z.eqb (f_length f) wl)) fs)).
Proof.
  induction 1 as [| r f items fs Hd _ IH]; [reflexivity | ].
  cbn [filter]. rewrite (describes_differs r f wl Hd).
  destruct (negb (Z.eqb (f_length f) wl)); [ | exact IH].
  cbn [format_findings map]. rewrite (format_finding_described r f Hd), IH.
  reflexivity.
Qed.

Lemma Forall2_readable (items : list json) (fs : list Finding) :
  Forall2 describes items fs ->
  Forall (fun r => exists len, PyVal.subscript r "length" = inr len) items.
Proof.
  induction 1 as [| r f items fs Hd _ IH]; constructor; eauto using describes_readable.
Qed.

(** X4.  With a readable structured file and a wildcard length, the
    content-discovery text is made of the findings alone: one line per
    finding whose length differs from the length of the probe's body,
    with the word count written twice.  Neither the console output nor
    the exit code of the tool enters it. *)
Theorem ffuf_with_baseline_renders_findings
        (data : json) (items : list json) (fs : list Finding) (body : string)
        (result : CompletedProcess) (w : World) :
  ffuf_result_json env = FileJson data ->
  PyVal.get_or_empty_list data "results" = inr (JList items) ->
  Forall2 describes items fs ->
  requests_get env (fake_url cfg) = inl body ->
  exists lvl msg,
    normalize cfg env "Ffuf" result w
    = (Ret (PyStr.strip
              (PyStr.join PyStr.nl
                 (map rendered
                    (filter (fun f => negb (Z.eqb (f_length f)
                                                  (Z.of_nat (String.length body))))
                            fs)))),
       logged w [(lvl, msg)]).
Proof.
  intros Hfile Hres Hitems Hprobe.
  destruct (log_checking_codes_returns "Ffuf" result (stdout result) w)
    as (o & lvl & msg & Ho).
  exists lvl, msg. unfold normalize, bind at 1. rewrite Ho.
  unfold bind at 1, clean. cbn [String.eqb Ascii.eqb Bool.eqb].
  unfold clean_ffuf, get_ffuf_results, get_wildcard_length, bind, lift.
  rewrite Hfile, Hres. cbn [ret]. fold (fake_url cfg). rewrite Hprobe. cbn [ret].
  unfold filter_by_length. cbn [PyVal.iterate bindE].
  rewrite (filter_items_all_readable items _ (Forall2_readable _ _ Hitems)).
  cbn beta iota. unfold raise, ret. cbn beta iota.
  rewrite (render_filtered items fs _ Hitems). reflexivity.
Qed.

(** X5.  A structured file that is an object without the key
    "results" counts as no finding: with a wildcard length the
    content-discovery text is empty. *)
Theorem ffuf_without_results_key_is_empty
        (entries : list (string * json)) (body : string)
        (result : CompletedProcess) (w : World) :
  ffuf_result_json env = FileJson (JDict entries) ->
  PyVal.lookup "results" entries = None ->
  requests_get env (fake_url cfg) = inl body ->
  exists lvl msg,
    normalize cfg env "Ffuf" result w = (Ret "", logged w [(lvl, msg)]).
Proof.
  intros Hfile Hres Hprobe.
  destruct (log_checking_codes_returns "Ffuf" result (stdout result) w)
    as (o & lvl & msg & Ho).
  exists lvl, msg. unfold normalize, bind at 1. rewrite Ho.
  unfold bind at 1, clean. cbn [String.eqb Ascii.eqb Bool.eqb].
  unfold clean_ffuf, get_ffuf_results, get_wildcard_length, bind, lift.
  rewrite Hfile. cbn [PyVal.get_or_empty_list]. rewrite Hres. cbn [ret].
  fold (fake_url cfg). rewrite Hprobe. reflexivity.
Qed.

(** X6.  A structured file that parses to something other than an
    object makes [get_ffuf_results] raise [AttributeError]: the loop
    stops at the content-discovery tool, without a row for it. *)
Theorem ffuf_file_not_an_object_aborts
        (data : json) (cmd : list string) (rest : list (string * list string))
        (w : World) :
  ffuf_result_json env = FileJson data ->
  (forall entries, data <> JDict entries) ->
  exists w',
    for_each (("Ffuf", cmd) :: rest) (run_tool cfg env) w = (Raise AttributeError, w')
    /\ results w' = results w
    /\ dispatched w' = (dispatched w ++ [cmd])%list.
Proof.
  intros Hfile Hdata. rewrite for_each_cons, run_tool_unfold. unfold bind at 1.
  destruct (log_checking_codes_returns "Ffuf" (subprocess_run env cmd)
              (stdout (subprocess_run env cmd)) (started w "Ffuf" cmd))
    as (o & lvl & msg & Ho).
  rewrite Ho. unfold bind, clean, clean_ffuf, get_ffuf_results, bind.
  cbn [String.eqb Ascii.eqb Bool.eqb]. rewrite Hfile.
  destruct data; try (eexists; split; [reflexivity | split; reflexivity]).
  exfalso. now apply (Hdata entries).
Qed.

End Ffuf.

Section NiktoMore.
Import PyStr PyStrFacts.

Variable cfg : Config.
Variable env : Env.

(** X7.  The vuln-scan special case: after a nonzero exit code, an
    output with the version banner and a target or server line is
    handled exactly as after exit code 0, and logged as a success. *)
Theorem nikto_special_case_counts_as_success (code : Z) (raw : string) (w : World) :
  code <> 0%Z ->
  contains "Nikto v" (strip raw) = true ->
  contains "+ Target" (strip raw) = true \/ contains "+ Server:" (strip raw) = true ->
  normalize cfg env "Nikto" (mkCompleted code raw) w
  = normalize cfg env "Nikto" (mkCompleted 0 raw) w
  /\ exists text,
       normalize cfg env "Nikto" (mkCompleted code raw) w
       = (Ret text, logged w [(INFO, "Nikto executed successfully.")]).
Proof.
  intros Hcode Hv Ht.
  assert (Hm : contains "+ Target" (strip raw) || contains "+ Server:" (strip raw) = true).
  { apply orb_true_iff. exact Ht. }
  assert (E : forall w0, log_checking_codes "Nikto" (mkCompleted code raw) raw w0
                         = log_checking_codes "Nikto" (mkCompleted 0 raw) raw w0).
  { intros w0. unfold log_checking_codes. cbn [returncode].
    apply Z.eqb_neq in Hcode. rewrite Hcode. cbn [negb String.eqb Ascii.eqb Bool.eqb Z.eqb].
    rewrite Hv, Hm. reflexivity. }
  split.
  - unfold normalize, bind. cbn [stdout]. now rewrite E.
  - unfold normalize, bind. cbn [stdout]. rewrite E.
    rewrite log_checking_codes_zero by reflexivity.
    eexists. reflexivity.
Qed.

Lemma strip_keeps_marker (s : string) :
  startswith s "+" = true -> startswith (strip s) "+" = true.
Proof.
  destruct s as [| c s]; [discriminate | ]. cbn [startswith]. intros H.
  apply andb_prop in H. destruct H as [H _]. apply Ascii.eqb_eq in H. subst c.
  unfold strip. cbn [lstrip]. change (is_space "+") with false. cbn iota.
  rewrite rstrip_cons. change (is_space "+") with false.
  destruct (rstrip s); reflexivity.
Qed.

Lemma join_starts (x : string) (xs : list string) :
  startswith x "+" = true -> startswith (join nl (x :: xs)) "+" = true.
Proof.
  destruct x as [| c x]; [discriminate | ]. intros H.
  destruct xs; [exact H | ]. rewrite join_cons2. exact H.
Qed.

(** X8.  Whatever the exit code, the vuln-scan text is empty or begins
    with the finding marker: the error payload that
    [log_checking_codes] returns for a failure does not reach the row. *)
Theorem nikto_text_is_empty_or_starts_with_marker (result : CompletedProcess) (w : World) :
  exists text lvl msg,
    normalize cfg env "Nikto" result w = (Ret text, logged w [(lvl, msg)])
    /\ (text = "" \/ startswith text "+" = true)
    /\ startswith text "Error:" = false.
Proof.
  destruct (log_checking_codes_returns "Nikto" result (stdout result) w)
    as (o & lvl & msg & Ho).
  exists (strip (clean_nikto o)), lvl, msg. split.
  - unfold normalize, bind. rewrite Ho. reflexivity.
  - assert (H : strip (clean_nikto o) = ""
                \/ startswith (strip (clean_nikto o)) "+" = true).
    { rewrite clean_nikto_spec.
      destruct (keep_first_by_basename (splitlines o)) as [| x xs] eqn:E; [now left | ].
      right. apply strip_keeps_marker, join_starts.
      assert (Hx : In x (keep_first_from [] (splitlines o))).
      { fold (keep_first_by_basename (splitlines o)). rewrite E. now left. }
      destruct (keep_first_from_In _ _ _ Hx) as (l & _ & -> & Hf).
      apply strip_keeps_marker.
      unfold nikto_finding, nikto_skipped in Hf.
      apply negb_true_iff, orb_false_iff in Hf. destruct Hf as [Ha _].
      now apply negb_false_iff in Ha. }
    split; [exact H | ].
    destruct H as [-> | H]; [reflexivity | ].
    destruct (strip (clean_nikto o)) as [| c s]; [reflexivity | ].
    cbn [startswith] in H. apply andb_prop in H. destruct H as [H _].
    apply Ascii.eqb_eq in H. subst c. reflexivity.
Qed.

End NiktoMore.

Section PathKey.
Import PyStr PyStrFacts OsPath.

Lemma rfind_from_absent (c : ascii) (s : string) :
  forall i last,
    all_chars (fun a => negb (Ascii.eqb a c)) s = true ->
    rfind_from c s i last = last.
Proof.
  induction s as [| a s IH]; intros i last H; [reflexivity | ].
  cbn [all_chars] in H. apply andb_prop in H. destruct H as [Ha Hs].
  cbn [rfind_from]. apply negb_true_iff in Ha. rewrite Ha. now apply IH.
Qed.

Lemma rfind_from_app (c : ascii) (a b : string) :
  forall i last,
    rfind_from c (a ++ String c b) i last
    = rfind_from c b (i + Z.of_nat (String.length a) + 1)%Z
                 (i + Z.of_nat (String.length a))%Z.
Proof.
  induction a as [| x a IH]; intros i last.
  - cbn [append rfind_from String.length]. rewrite Ascii.eqb_refl.
    now rewrite Z.add_0_r.
  - cbn [append rfind_from]. rewrite IH. cbn [String.length].
    rewrite Nat2Z.inj_succ. f_equal; lia.
Qed.

(** The last occurrence of [c] in [a ++ c ++ b], when [b] has none. *)
Lemma rfind_last (c : ascii) (a b : string) :
  all_chars (fun x => negb (Ascii.eqb x c)) b = true ->
  rfind c (a ++ String c b) = Z.of_nat (String.length a).
Proof.
  intros H. unfold rfind. rewrite rfind_from_app.
  now rewrite (rfind_from_absent c b _ _ H).
Qed.

Lemma substring_all (s : string) : substring 0 (String.length s) s = s.
Proof. induction s as [| c s IH]; [reflexivity | ]. cbn. now rewrite IH. Qed.

Lemma substring_head (a b : string) : substring 0 (String.length a) (a ++ b) = a.
Proof.
  induction a as [| c a IH]; [now destruct b | ]. cbn. now rewrite IH.
Qed.

Lemma substring_skip (a b : string) (n m : nat) :
  substring (String.length a + n) m (a ++ b) = substring n m b.
Proof. induction a as [| c a IH]; [reflexivity | ]. cbn. exact IH. Qed.

Lemma string_length_app (a b : string) :
  String.length (a ++ b) = (String.length a + String.length b)%nat.
Proof. induction a as [| c a IH]; [reflexivity | ]. cbn. now rewrite IH. Qed.

(** The last component of a path. *)
Lemma basename_last_component (dir file : string) :
  no_slash file = true -> basename (dir ++ String "/" file) = file.
Proof.
  intros H. unfold basename. rewrite (rfind_last "/" dir file H).
  unfold slice. rewrite string_length_app. cbn [String.length].
  replace (Z.to_nat (Z.of_nat (String.length dir) + 1))
    with (String.length dir + 1)%nat by lia.
  replace (Z.to_nat (Z.of_nat (String.length dir + S (String.length file))
                     - (Z.of_nat (String.length dir) + 1)))
    with (String.length file) by lia.
  rewrite substring_skip. cbn [substring]. apply substring_all.
Qed.

Lemma rfind_absent (c : ascii) (s : string) :
  all_chars (fun a => negb (Ascii.eqb a c)) s = true -> rfind c s = (-1)%Z.
Proof. intros H. unfold rfind. now apply rfind_from_absent. Qed.

(** The root of a file name with an extension. *)
Lemma splitext_root_of_name (name ext : string) :
  no_slash name = true -> no_slash ext = true -> no_dot ext = true ->
  only_dots name = false ->
  splitext_root (name ++ String "." ext) = name.
Proof.
  intros Hn He Hd Hname. unfold splitext_root.
  rewrite (rfind_last "." name ext Hd).
  rewrite rfind_absent.
  2:{ unfold no_slash in *. rewrite all_chars_app, Hn. cbn. exact He. }
  replace (Z.of_nat (String.length name) >? -1)%Z with true
    by (symmetry; apply Z.gtb_lt; lia).
  unfold slice. cbn [Z.add Z.to_nat Z.opp]. rewrite Z.sub_0_r, Nat2Z.id.
  rewrite substring_head. unfold only_dots in Hname. rewrite Hname.
  rewrite Z.sub_0_r, Nat2Z.id. apply substring_head.
Qed.

(** X9.  The base name under which a vuln-scan finding is filed is the
    last component of the path without its extension: neither the
    directory nor the extension matters. *)
Theorem nikto_key_ignores_directory_and_extension (dir name ext : string) :
  no_slash name = true ->
  no_slash ext = true ->
  no_dot ext = true ->
  only_dots name = false ->
  nikto_basename (dir ++ "/" ++ name ++ "." ++ ext) = name.
Proof.
  intros Hn He Hd Hname. unfold nikto_basename.
  change (dir ++ "/" ++ name ++ "." ++ ext) with (dir ++ String "/" (name ++ String "." ext)).
  rewrite basename_last_component.
  - now apply splitext_root_of_name.
  - unfold no_slash in *. rewrite all_chars_app, Hn. cbn. exact He.
Qed.

End PathKey.

(* ------------------------------------------------------------------ *)
(** * The vuln-scan text *)

Section NiktoText.
Import PyStr PyStrFacts OsPath.
Variable cfg : Config.
Variable env : Env.








End NiktoText.

Section TextTools.
Import PyStr PyStrFacts.

Variable cfg : Config.
Variable env : Env.

Lemma find_first {A : Type} (f : A -> bool) (l : list A) (x : A) :
  find f l = Some x ->
  exists before after,
    l = (before ++ x :: after)%list
    /\ Forall (fun y => f y = false) before /\ f x = true.
Proof.
  induction l as [| a l IH]; [discriminate | ]. cbn [find].
  destruct (f a) eqn:E.
  - intros H. inversion H; subst a. exists [], l. repeat split; auto.
  - intros H. destruct (IH H) as (b & c & -> & Hb & Hx).
    exists (a :: b), c. repeat split; auto.
Qed.

Lemma find_none_all {A : Type} (f : A -> bool) (l : list A) :
  find f l = None -> Forall (fun y => f y = false) l.
Proof.
  induction l as [| a l IH]; [constructor | ]. cbn [find].
  destruct (f a) eqn:E; [discriminate | ]. intros H. constructor; auto.
Qed.

(** X10.  After exit code 0 the WAF-detect text is the trimmed output
    when no line has a verdict marker; otherwise it is the first line
    with a marker, trimmed, which is a single line and still has the
    marker. *)
Theorem wafwoof_text_is_first_verdict_line (raw text : string) (w w' : World) :
  normalize cfg env "Wafwoof" (mkCompleted 0 raw) w = (Ret text, w') ->
  (Forall (fun l => waf_verdict l = false) (splitlines (strip raw))
   /\ text = strip raw)
  \/ (exists before line after,
        splitlines (strip raw) = (before ++ line :: after)%list
        /\ Forall (fun l => waf_verdict l = false) before
        /\ waf_verdict line = true
        /\ text = strip line
        /\ waf_verdict text = true
        /\ all_chars not_break text = true).
Proof.
  rewrite normalize_wafwoof_zero. intros H. inversion H; subst text. clear H.
  unfold waf_text, clean_wafwoof.
  destruct (find waf_verdict (splitlines (strip raw))) as [line | ] eqn:E.
  - right. destruct (find_first _ _ _ E) as (b & a & Hl & Hb & Hv).
    exists b, line, a. repeat split; auto.
    + now apply waf_verdict_strip.
    + apply all_chars_strip. apply (splitlines_line_free (strip raw) false).
      unfold splitlines in Hl. rewrite Hl. apply in_or_app. right. now left.
  - left. split; [now apply find_none_all | apply strip_idem].
Qed.

(** X11.  A service-scan output that consists of banner lines only
    gives the empty text. *)
Theorem nmap_text_of_banners_is_empty (raw : string) (w : World) :
  Forall (fun l => nmap_banner l = true) (splitlines (strip raw)) ->
  normalize cfg env "Nmap" (mkCompleted 0 raw) w
  = (Ret "", logged w [(INFO, "Nmap executed successfully.")]).
Proof.
  intros H. rewrite normalize_nmap_zero. f_equal. f_equal.
  unfold nmap_text, clean_nmap.
  replace (filter _ (splitlines (strip raw))) with (@nil string); [reflexivity | ].
  symmetry. induction H as [| l ls Hl _ IH]; [reflexivity | ].
  cbn [filter]. rewrite Hl. exact IH.
Qed.

Lemma strip_fixed_rstrip (t : string) : strip t = t -> rstrip t = t.
Proof. intros H. rewrite <- H. apply rstrip_strip. Qed.

(** X12.  The service-scan clean-up changes nothing in a trimmed text
    with LF line ends and no banner line. *)
Theorem nmap_text_keeps_banner_free_text (t : string) (w : World) :
  strip t = t ->
  all_chars plain_or_lf t = true ->
  Forall (fun l => nmap_banner l = false) (splitlines t) ->
  normalize cfg env "Nmap" (mkCompleted 0 t) w
  = (Ret t, logged w [(INFO, "Nmap executed successfully.")]).
Proof.
  intros Hs Hp Hl. rewrite normalize_nmap_zero. f_equal. f_equal.
  unfold nmap_text, clean_nmap. rewrite Hs.
  rewrite filter_all.
  - rewrite (join_splitlines t Hp (strip_fixed_rstrip t Hs)). now rewrite Hs.
  - intros l Hin. apply negb_true_iff. rewrite Forall_forall in Hl. now apply Hl.
Qed.

(** X13.  In the service-scan text no line after the first begins
    with a banner prefix. *)
Theorem nmap_text_has_no_banner_after_first_line
        (raw text : string) (w w' : World) (l : string) :
  normalize cfg env "Nmap" (mkCompleted 0 raw) w = (Ret text, w') ->
  In l (tl (splitlines text)) ->
  nmap_banner l = false.
Proof.
  rewrite normalize_nmap_zero. intros H. inversion H; subst text. clear H.
  rewrite nmap_text_eq. intros Hx.
  unfold clean_nmap in Hx. fold (nmap_kept (strip raw)) in Hx.
  rewrite strip_lstrip_rstrip in Hx.
  apply (splitlines_lstrip_tail _ false) in Hx.
  apply incl_tl_self in Hx. apply splitlines_rstrip in Hx.
  destruct Hx as [z Hz].
  apply (splitlines_join_incl _ (nmap_kept_free (strip raw))) in Hz.
  apply filter_In in Hz. destruct Hz as [_ Hz].
  apply negb_true_iff in Hz.
  destruct (nmap_banner l) eqn:Eb; [ | reflexivity].
  now rewrite (nmap_banner_app _ z Eb) in Hz.
Qed.

(** [split(" ", 1)] on a text with a space. *)
Lemma split1_at_first_space (s : string) :
  contains " " s = true ->
  exists token rest,
    split1 " " s = [token; rest]
    /\ s = token ++ " " ++ rest
    /\ contains " " token = false.
Proof.
  induction s as [| c s IH]; [discriminate | ].
  cbn [contains startswith split1]. rewrite (Ascii.eqb_sym " " c).
  destruct (Ascii.eqb_spec c " ") as [-> | Hc].
  - intros _. exists "", s. repeat split; reflexivity.
  - cbn [andb orb]. intros H. destruct (IH H) as (token & rest & Hsp & Hs & Ht).
    exists (String c token), rest. rewrite Hsp. cbn [cons_first]. repeat split.
    + cbn [append]. now rewrite Hs.
    + cbn [contains startswith]. rewrite (Ascii.eqb_sym " " c).
      destruct (Ascii.eqb_spec c " "); [contradiction | ]. exact Ht.
Qed.

(** X14.  After exit code 0, when the trimmed output of the
    fingerprint tool has a space, the text is what follows the first
    space, trimmed; what is dropped is the first token and that space. *)
Theorem whatweb_drops_first_token (result : CompletedProcess) (w : World) :
  returncode result = 0%Z ->
  contains " " (strip (stdout result)) = true ->
  exists token rest,
    strip (stdout result) = token ++ " " ++ rest
    /\ contains " " token = false
    /\ normalize cfg env "Whatweb" result w
       = (Ret (strip rest), logged w [(INFO, "Whatweb executed successfully.")]).
Proof.
  intros Hrc Hsp.
  destruct (split1_at_first_space _ Hsp) as (token & rest & Hs & Heq & Ht).
  exists token, rest. repeat split; auto.
  unfold normalize, bind. rewrite (log_checking_codes_zero _ _ _ _ Hrc).
  unfold clean. cbn [String.eqb Ascii.eqb Bool.eqb]. unfold clean_whatweb.
  rewrite Hs. reflexivity.
Qed.

(** X15.  For every tool but the fingerprint and the content-discovery
    tool, normalization returns a text, trimmed, after exactly one log
    record, whatever the output and the exit code. *)
Theorem text_only_tools_always_return (t : string) (result : CompletedProcess)
        (w : World) :
  t <> "Whatweb" -> t <> "Ffuf" ->
  exists text lvl msg,
    normalize cfg env t result w = (Ret text, logged w [(lvl, msg)])
    /\ strip text = text.
Proof.
  intros H1 H2.
  destruct (log_checking_codes_returns t result (stdout result) w)
    as (o & lvl & msg & Ho).
  destruct (clean_pure_tools cfg env t o (logged w [(lvl, msg)]) H1 H2) as (o' & Hc).
  exists (strip o'), lvl, msg. split; [ | apply strip_idem].
  unfold normalize, bind. now rewrite Ho, Hc.
Qed.

End TextTools.

Section Runs.
Import PyStr PyStrFacts.

Variable cfg : Config.
Variable env : Env.

(** X16.  Two selection strings (neither the sentinel) whose names
    agree up to case and surrounding white space select the same
    commands. *)
Theorem selection_ignores_case_and_spacing (s1 s2 : string) (w : World) :
  s1 <> "all" -> s2 <> "all" ->
  selected_names s1 = selected_names s2 ->
  filterCommands (with_tools cfg s1) w = filterCommands (with_tools cfg s2) w.
Proof.
  intros H1 H2 Hn. unfold filterCommands. cbn [tools with_tools].
  apply String.eqb_neq in H1, H2. rewrite H1, H2.
  fold (requested_names s1). fold (requested_names s2).
  change (map (fun tool => lower (strip tool)) (requested_names s1))
    with (selected_names s1).
  change (map (fun tool => lower (strip tool)) (requested_names s2))
    with (selected_names s2).
  rewrite Hn. reflexivity.
Qed.

Lemma offending_nil (s : string) :
  offending s = [] -> Forall (fun n => is_allowed n = true) (requested_names s).
Proof.
  unfold offending. induction (requested_names s) as [| n ns IH]; [constructor | ].
  cbn [filter]. destruct (is_allowed n) eqn:E; cbn [negb]; [ | discriminate].
  intros H. constructor; auto.
Qed.

Lemma offending_of_valid (s : string) :
  s <> "all" -> valid_selection s -> offending s = [].
Proof.
  intros Hs [H | H]; [contradiction | ].
  unfold offending. induction H as [| n ns Hn _ IH]; [reflexivity | ].
  cbn [filter]. rewrite Hn. exact IH.
Qed.

(** How [filterCommands] ends. *)
Lemma filterCommands_cases (w : World) :
  (valid_selection (tools cfg) /\ exists d, filterCommands cfg w = (Ret d, w))
  \/ (~ valid_selection (tools cfg)
      /\ filterCommands cfg w
         = (Exit 1, logged w [(ERROR, invalid_message (offending (tools cfg)))])).
Proof.
  destruct (String.eqb (tools cfg) "all") eqn:E.
  - left. apply String.eqb_eq in E. split; [now left | ].
    exists (commands cfg). unfold filterCommands. now rewrite E.
  - apply String.eqb_neq in E.
    destruct (offending (tools cfg)) as [| n ns] eqn:Eo.
    + left. apply offending_nil in Eo. split; [now right | ].
      destruct (filterCommands_accepts cfg w E Eo) as (d & ks & Hf & _). eauto.
    + right. split.
      * intros Hv. rewrite (offending_of_valid _ E Hv) in Eo. discriminate.
      * rewrite <- Eo. apply filterCommands_rejects; [assumption | ].
        rewrite Eo. discriminate.
Qed.

(** X17.  [filterCommands] never raises: for a valid selection it
    returns registry entries without a repeated key and leaves the
    state as it is; otherwise it logs one error record and ends in
    [sys.exit(1)]. *)
Theorem filterCommands_never_raises (w : World) :
  (valid_selection (tools cfg)
   /\ exists d, filterCommands cfg w = (Ret d, w)
                /\ incl d (commands cfg) /\ NoDup (PyVal.keys d))
  \/ (~ valid_selection (tools cfg)
      /\ filterCommands cfg w
         = (Exit 1, logged w [(ERROR, invalid_message (offending (tools cfg)))])).
Proof.
  destruct (filterCommands_cases w) as [[Hv (d & Hd)] | H]; [left | now right].
  split; [assumption | ]. exists d. split; [assumption | ].
  destruct (filterCommands_nodup cfg w Hv) as (d' & Hd' & Hnd).
  assert (d' = d) by congruence. subst d'. split; [ | assumption].
  destruct (String.eqb (tools cfg) "all") eqn:E.
  - unfold filterCommands in Hd. rewrite E in Hd. inversion Hd. apply incl_refl.
  - apply String.eqb_neq in E. destruct Hv as [Hv | Hv]; [contradiction | ].
    destruct (filterCommands_accepts cfg w E Hv) as (d' & ks & Hf & Hi & _).
    assert (d' = d) by congruence. now subst d'.
Qed.

(** X18.  The script ends in [sys.exit] only for an invalid selection:
    the code is 1, no command has been dispatched and no row
    recorded. *)
Theorem sys_exit_only_before_dispatch (code : Z) (w' : World) :
  main cfg env initial_world = (Exit code, w') ->
  code = 1%Z
  /\ ~ valid_selection (tools cfg)
  /\ dispatched w' = []
  /\ results w' = [].
Proof.
  rewrite main_unfold. unfold bind.
  destruct (filterCommands_cases (logged initial_world (preamble cfg)))
    as [[Hv (d & Hd)] | [Hn Hd]]; rewrite Hd.
  - intros H. exfalso.
    destruct (for_each_outcome cfg env d (logged initial_world (preamble cfg)))
      as [(w1 & E & _) | (e & w1 & b & t & c & a & w2 & E & _)];
      rewrite E in H; discriminate.
  - intros H. inversion H; subst. auto.
Qed.

(** X19.  However a run over a valid selection ends, the recorded
    tools are the first of the selected ones, in order and each once;
    all of them when the script returns.  There is one dispatched
    command per row, and at most one more. *)
Theorem no_tool_recorded_twice (r : Outcome unit) (w' : World) :
  valid_selection (tools cfg) ->
  main cfg env initial_world = (r, w') ->
  exists d rest,
    filterCommands cfg (logged initial_world (preamble cfg))
    = (Ret d, logged initial_world (preamble cfg))
    /\ PyVal.keys d = (map Tool (results w') ++ rest)%list
    /\ NoDup (map Tool (results w'))
    /\ (r = Ret tt -> rest = [])
    /\ (List.length (results w') <= List.length (dispatched w')
        <= S (List.length (results w')))%nat.
Proof.
  intros Hv. rewrite main_unfold. unfold bind.
  destruct (filterCommands_nodup cfg (logged initial_world (preamble cfg)) Hv)
    as (d & Hd & Hnd).
  rewrite Hd.
  destruct (for_each_outcome cfg env d (logged initial_world (preamble cfg)))
    as [(w1 & E & Hr & Hdis) | (e & w1 & b & t & c & a & w2 & E & Hc & _ & Hr & Hdis)];
    rewrite E; intros H; inversion H; subst r w';
    cbn [results dispatched logged initial_world map app] in Hr, Hdis.
  - exists d, []. rewrite app_nil_r. repeat split; auto.
    + now rewrite Hr.
    + rewrite <- (length_map Tool), Hr, Hdis. unfold PyVal.keys.
      rewrite !length_map. lia.
    + rewrite <- (length_map Tool), Hr, Hdis. unfold PyVal.keys.
      rewrite !length_map. lia.
  - exists d, (t :: PyVal.keys a). repeat split; auto.
    + rewrite Hr, Hc. unfold PyVal.keys. now rewrite map_app.
    + rewrite Hr. rewrite Hc in Hnd. unfold PyVal.keys in *.
      rewrite map_app in Hnd. now apply NoDup_app_remove_r in Hnd.
    + discriminate.
    + rewrite <- (length_map Tool), Hr, Hdis. unfold PyVal.keys.
      rewrite length_app, !length_map. cbn. lia.
    + rewrite <- (length_map Tool), Hr, Hdis. unfold PyVal.keys.
      rewrite length_app, !length_map. cbn. lia.
Qed.

End Runs.

Create HintDb steady.

Section Standalone.
Import PyStr PyStrFacts.

Variable cfg : Config.
Variable env : Env.

Lemma logged_nil (w : World) : logged w [] = w.
Proof. destruct w. unfold logged. cbn. now rewrite app_nil_r. Qed.

Lemma logged_logged (w : World) (a b : list (Level * string)) :
  logged (logged w a) b = logged w (a ++ b).
Proof. unfold logged. cbn. now rewrite app_assoc. Qed.

Lemma steady_ret {A : Type} (a : A) : steady (ret a).
Proof. exists (Ret a), []. intros w. now rewrite logged_nil. Qed.

Lemma steady_raise {A : Type} (e : Exn) : steady (@raise A e).
Proof. exists (Raise e), []. intros w. now rewrite logged_nil. Qed.

Lemma steady_lift {A : Type} (x : Exn + A) : steady (lift x).
Proof. destruct x; [apply steady_raise | apply steady_ret]. Qed.

Lemma steady_logging (lvl : Level) (msg : string) : steady (logging lvl msg).
Proof. exists (Ret tt), [(lvl, msg)]. reflexivity. Qed.

Lemma steady_bind {A B : Type} (m : M A) (k : A -> M B) :
  steady m -> (forall a, steady (k a)) -> steady (bind m k).
Proof.
  intros (out & recs & Hm) Hk. destruct out as [a | e | c].
  - destruct (Hk a) as (out' & recs' & Hka). exists out', (recs ++ recs')%list.
    intros w. unfold bind. now rewrite Hm, Hka, logged_logged.
  - exists (Raise e), recs. intros w. unfold bind. now rewrite Hm.
  - exists (Exit c), recs. intros w. unfold bind. now rewrite Hm.
Qed.

#[local] Hint Resolve steady_ret steady_raise steady_lift steady_logging steady_bind
  : steady.

Lemma steady_log_checking_codes t result output :
  steady (log_checking_codes t result output).
Proof.
  unfold log_checking_codes.
  repeat match goal with |- context [if ?b then _ else _] => destruct b end;
    auto with steady.
Qed.

Lemma steady_clean t output : steady (clean cfg env t output).
Proof.
  unfold clean, clean_ffuf, get_ffuf_results, get_wildcard_length.
  repeat match goal with |- context [if ?b then _ else _] => destruct b end;
    auto with steady.
  apply steady_bind; [destruct (ffuf_result_json env); auto with steady | ].
  intros a.
  apply steady_bind; [destruct (requests_get env _); auto with steady | ].
  intros [wl | ]; auto 7 with steady.
Qed.

Lemma steady_normalize t result : steady (normalize cfg env t result).
Proof.
  unfold normalize. apply steady_bind; [apply steady_log_checking_codes | ].
  intros o. apply steady_bind; [apply steady_clean | ]. intros o'. apply steady_ret.
Qed.

(** X20.  When the loop returns, each row holds the text that the
    normalization of that tool gives on its own: no row depends on the
    tools run before it. *)
Theorem rows_are_those_of_the_tools_alone (cmds : list (string * list string)) :
  forall w w',
    for_each cmds (run_tool cfg env) w = (Ret tt, w') ->
    results w'
    = (results w
       ++ map (fun item => mkRow (fst item) (text_alone cfg env item)) cmds)%list.
Proof.
  induction cmds as [| [t cmd] cmds IH]; intros w w'.
  - cbn. intros H. inversion H. now rewrite app_nil_r.
  - rewrite for_each_cons, run_tool_normalize.
    destruct (steady_normalize t (subprocess_run env cmd)) as (out & recs & Hn).
    rewrite Hn. destruct out as [text | e | c]; try discriminate.
    intros H. rewrite (IH _ _ H). cbn [map fst snd]. unfold text_alone.
    cbn [fst snd]. rewrite Hn. cbn [fst results recorded logged started].
    now rewrite <- app_assoc.
Qed.

(** X21.  The progress indicator: every turn writes the message and
    one of the four frames after a carriage return (the index never
    leaves the frame list), the frames repeat with period four, and
    the blanks written by [stop] have the width of such a line. *)
Theorem spinner_frame_is_erased_by_stop (message : string) (i : nat) :
  exists frame,
    spin_write message i = inr (cr ++ message ++ " " ++ frame)
    /\ In frame spinner_frames
    /\ stop_write message
       = cr ++ spaces (String.length (message ++ " " ++ frame)) ++ cr
    /\ spin_write message (i + 4) = spin_write message i.
Proof.
  assert (Hp : spin_write message (i + 4) = spin_write message i).
  { unfold spin_write, spinner_frame. cbn [List.length spinner_frames].
    replace (i + 4)%nat with (i + 1 * 4)%nat by lia.
    now rewrite Nat.Div0.mod_add. }
  assert (Hw : forall frame, String.length frame = 1%nat ->
               stop_write message
               = cr ++ spaces (String.length (message ++ " " ++ frame)) ++ cr).
  { intros frame Hf. unfold stop_write. do 2 f_equal. f_equal.
    clear Hp. induction message as [| c m IH]; cbn; [now rewrite Hf | ].
    cbn in IH. lia. }
  unfold spin_write, spinner_frame in *. cbn [List.length spinner_frames] in *.
  pose proof (Nat.mod_upper_bound i 4 ltac:(discriminate)) as Hlt.
  destruct (i mod 4)%nat as [| [| [| [| n]]]] eqn:E; [ | | | | lia];
    cbn [nth_error bindE];
    eexists; (split; [reflexivity | split; [cbn; tauto | split; [now apply Hw | exact Hp]]]).
Qed.

End Standalone.

Section FailureRows.
Import PyStr PyStrFacts.

Variable cfg : Config.
Variable env : Env.

Lemma contains_app_r (m a b : string) :
  contains m b = true -> contains m (a ++ b) = true.
Proof.
  intros H. induction a as [| c a IH]; [exact H | ].
  cbn [append contains]. rewrite IH. apply orb_true_r.
Qed.

Lemma contains_app_l (m a b : string) :
  contains m a = true -> contains m (a ++ b) = true.
Proof.
  induction a as [| c a IH].
  - destruct m; [now destruct b | discriminate].
  - cbn [append contains]. intros H. apply orb_prop in H. destruct H as [H | H].
    + change (String c (a ++ b)) with (String c a ++ b).
      now rewrite (startswith_app _ b _ H).
    + rewrite (IH H). apply orb_true_r.
Qed.

(** The first line is the beginning of the text. *)
Lemma first_line_prefix (s : string) :
  forall l rest, splitlines_from false s = l :: rest -> exists post, s = l ++ post.
Proof.
  induction s as [| c s IH]; intros l rest; [discriminate | ].
  cbn [splitlines_from andb]. destruct (is_linebreak c).
  - intros H. inversion H. now exists (String c s).
  - destruct (splitlines_from false s) as [| l0 ls] eqn:E.
    + apply splitlines_nil in E. subst s. cbn [cons_first]. intros H. inversion H.
      now exists "".
    + cbn [cons_first]. intros H. inversion H.
      destruct (IH l0 ls eq_refl) as [post Hp]. exists post. cbn. now rewrite <- Hp.
Qed.

(** Every line is a piece of the text. *)
Lemma line_is_inside (s : string) :
  forall flag l, In l (splitlines_from flag s) -> exists pre post, s = pre ++ l ++ post.
Proof.
  induction s as [| c s IH]; intros flag l; cbn [splitlines_from];
    [intros H; inversion H | ].
  destruct (flag && Ascii.eqb c LF).
  - intros H. destruct (IH _ _ H) as (pre & post & Hs).
    exists (String c pre), post. cbn. now rewrite <- Hs.
  - destruct (is_linebreak c).
    + intros [<- | H]; [now exists "", (String c s) | ].
      destruct (IH _ _ H) as (pre & post & Hs).
      exists (String c pre), post. cbn. now rewrite <- Hs.
    + destruct (splitlines_from false s) as [| l0 ls] eqn:E; cbn [cons_first].
      * intros [<- | []]. now exists "", s.
      * intros [<- | H].
        -- destruct (first_line_prefix s l0 ls E) as [post Hp].
           exists "", post. cbn. now rewrite <- Hp.
        -- destruct (IH false l) as (pre & post & Hs); [rewrite E; now right | ].
           exists (String c pre), post. cbn. now rewrite <- Hs.
Qed.

Lemma contains_line (m s l : string) :
  In l (splitlines s) -> contains m l = true -> contains m s = true.
Proof.
  intros Hin Hm. destruct (line_is_inside s false l Hin) as (pre & post & ->).
  apply contains_app_r, contains_app_l, Hm.
Qed.

(** X22.  After a nonzero exit code of the WAF-detect tool whose
    trimmed output has no verdict marker, the row holds the error
    payload, and the failure is logged. *)
Theorem wafwoof_failure_keeps_error_payload (result : CompletedProcess) (w : World) :
  returncode result <> 0%Z ->
  contains "No WAF detected" (strip (stdout result)) = false ->
  contains "is behind" (strip (stdout result)) = false ->
  normalize cfg env "Wafwoof" result w
  = (Ret (strip ("Error: " ++ strip (stdout result))),
     logged w [(ERROR, "Wafwoof failed with exit code "
                       ++ of_int (returncode result))]).
Proof.
  intros Hrc H1 H2. unfold normalize, bind.
  rewrite log_checking_codes_nonzero; [ | assumption | discriminate].
  unfold clean. cbn [String.eqb Ascii.eqb Bool.eqb]. unfold ret, clean_wafwoof.
  destruct (find waf_verdict (splitlines ("Error: " ++ strip (stdout result))))
    as [line | ] eqn:E; [ | reflexivity].
  exfalso. apply find_some in E. destruct E as [Hin Hv].
  unfold waf_verdict in Hv. apply orb_prop in Hv.
  destruct Hv as [Hv | Hv]; apply (contains_line _ _ _ Hin) in Hv;
    cbn [append contains startswith Ascii.eqb Bool.eqb andb orb] in Hv; congruence.
Qed.

Lemma strip_keeps_error_marker (s : string) :
  startswith s "Error:" = true -> startswith (strip s) "Error:" = true.
Proof.
  intros H. unfold strip.
  assert (Hl : lstrip s = s).
  { destruct s as [| c s]; [discriminate | ]. cbn [startswith] in H.
    apply andb_prop in H. destruct H as [H _]. apply Ascii.eqb_eq in H. subst c.
    reflexivity. }
  rewrite Hl. now apply startswith_rstrip.
Qed.

(** X23.  After a nonzero exit code of the service-scan tool, the row
    begins with the error marker, and the failure is logged. *)
Theorem nmap_failure_keeps_error_marker (result : CompletedProcess) (w : World) :
  returncode result <> 0%Z ->
  exists text,
    normalize cfg env "Nmap" result w
    = (Ret text,
       logged w [(ERROR, "Nmap failed with exit code "
                         ++ of_int (returncode result))])
    /\ startswith text "Error:" = true.
Proof.
  intros Hrc. eexists. split.
  - unfold normalize, bind.
    rewrite log_checking_codes_nonzero; [ | assumption | discriminate].
    unfold clean. cbn [String.eqb Ascii.eqb Bool.eqb]. reflexivity.
  - apply strip_keeps_error_marker. unfold clean_nmap.
    apply strip_keeps_error_marker.
    set (o := "Error: " ++ strip (stdout result)).
    pose proof (startswith_first_line o "Error:" eq_refl) as Hfirst.
    pose proof (nmap_banner_first_line o) as Hban.
    destruct (splitlines o) as [| l0 ls] eqn:E; [discriminate Hfirst | ].
    cbn [hd] in Hfirst, Hban. cbn [filter].
    replace (nmap_banner l0) with false by (rewrite Hban; reflexivity).
    cbn [negb].
    assert (Hl0 : startswith l0 "Error:" = true) by (rewrite Hfirst; reflexivity).
    destruct (filter _ ls) as [| x xs]; [exact Hl0 | ].
    rewrite join_cons2. now apply startswith_app.
Qed.

End FailureRows.

Section MoreExamples.
Import PyStr.

Lemma filter_by_length_drops_baseline_length_witness :
  Forall (fun r => exists len, PyVal.subscript r "length" = inr len) example_items
  /\ filter_by_length (JList example_items) 1234
     = inr (filter (differs_from 1234) example_items)
  /\ filter (differs_from 1234) example_items = [example_item "login" 200 987 61 17].
Proof.
  assert (H : Forall (fun r => exists len, PyVal.subscript r "length" = inr len)
                     example_items).
  { repeat constructor; eexists; reflexivity. }
  split; [exact H | split; [ | reflexivity]].
  exact (proj1 (filter_by_length_drops_baseline_length example_items 1234 H)).
Defined.

Lemma filter_by_length_raises_at_first_unreadable_witness :
  Forall (fun r => exists len, PyVal.subscript r "length" = inr len)
         [example_item "admin" 200 1234 80 20]
  /\ PyVal.lookup "length" [("status", JInt 200)] = None
  /\ filter_by_length
       (JList ([example_item "admin" 200 1234 80 20]
               ++ JDict [("status", JInt 200)] :: [example_item "login" 200 987 61 17]))
       1234
     = inl (KeyError "length")
  /\ is_dict (JStr "login") = false
  /\ filter_by_length
       (JList ([example_item "admin" 200 1234 80 20]
               ++ JStr "login" :: [example_item "login" 200 987 61 17]))
       1234
     = inl TypeError.
Proof.
  assert (H : Forall (fun r => exists len, PyVal.subscript r "length" = inr len)
                     [example_item "admin" 200 1234 80 20]).
  { repeat constructor; eexists; reflexivity. }
  split; [exact H | split; [reflexivity | split; [ | split; [reflexivity | ]]]].
  - exact (proj1 (filter_by_length_raises_at_first_unreadable
                    [example_item "admin" 200 1234 80 20]
                    [example_item "login" 200 987 61 17]
                    (JDict [("status", JInt 200)]) 1234 H)
                 [("status", JInt 200)] eq_refl eq_refl).
  - exact (proj2 (filter_by_length_raises_at_first_unreadable
                    [example_item "admin" 200 1234 80 20]
                    [example_item "login" 200 987 61 17]
                    (JStr "login") 1234 H)
                 eq_refl).
Defined.

Lemma filter_by_length_twice_witness :
  filter_by_length (JList example_items) 1234
  = inr [example_item "login" 200 987 61 17]
  /\ filter_by_length (JList [example_item "login" 200 987 61 17]) 1234
     = inr [example_item "login" 200 987 61 17].
Proof.
  split; [reflexivity | ].
  exact (filter_by_length_twice (JList example_items) 1234
           [example_item "login" 200 987 61 17] eq_refl).
Defined.

Lemma ffuf_with_baseline_renders_findings_witness :
  ffuf_result_json
    (example_env_with_baseline (FileJson (JDict [("results", JList example_items)])) 1234)
  = FileJson (JDict [("results", JList example_items)])
  /\ PyVal.get_or_empty_list (JDict [("results", JList example_items)]) "results"
     = inr (JList example_items)
  /\ Forall2 describes example_items example_findings
  /\ requests_get
       (example_env_with_baseline
          (FileJson (JDict [("results", JList example_items)])) 1234)
       (fake_url (example_config "ffuf"))
     = inl (spaces 1234)
  /\ exists lvl msg,
       normalize (example_config "ffuf")
         (example_env_with_baseline
            (FileJson (JDict [("results", JList example_items)])) 1234)
         "Ffuf" (mkCompleted 1 "console") initial_world
       = (Ret (strip
                 (join nl
                    (map rendered
                       (filter (fun f => negb (Z.eqb (f_length f)
                                                 (Z.of_nat (String.length (spaces 1234)))))
                               example_findings)))),
          logged initial_world [(lvl, msg)]).
Proof.
  assert (H : Forall2 describes example_items example_findings).
  { repeat constructor; cbn; eexists; split; reflexivity. }
  split; [reflexivity | split; [reflexivity | split; [exact H | split; [reflexivity | ]]]].
  exact (ffuf_with_baseline_renders_findings (example_config "ffuf")
           (example_env_with_baseline
              (FileJson (JDict [("results", JList example_items)])) 1234)
           (JDict [("results", JList example_items)]) example_items example_findings
           (spaces 1234) (mkCompleted 1 "console") initial_world
           eq_refl eq_refl H eq_refl).
Defined.

Lemma ffuf_without_results_key_is_empty_witness :
  ffuf_result_json (example_env_with_baseline (FileJson (JDict [])) 10)
  = FileJson (JDict [])
  /\ PyVal.lookup "results" (@nil (string * json)) = None
  /\ requests_get (example_env_with_baseline (FileJson (JDict [])) 10)
                  (fake_url (example_config "ffuf"))
     = inl (spaces 10)
  /\ exists lvl msg,
       normalize (example_config "ffuf")
                 (example_env_with_baseline (FileJson (JDict [])) 10)
                 "Ffuf" (mkCompleted 0 "console") initial_world
       = (Ret "", logged initial_world [(lvl, msg)]).
Proof.
  split; [reflexivity | split; [reflexivity | split; [reflexivity | ]]].
  exact (ffuf_without_results_key_is_empty (example_config "ffuf")
           (example_env_with_baseline (FileJson (JDict [])) 10)
           [] (spaces 10) (mkCompleted 0 "console") initial_world
           eq_refl eq_refl eq_refl).
Defined.

Lemma ffuf_file_not_an_object_aborts_witness :
  ffuf_result_json (example_env 0 "console" (FileJson (JList []))) = FileJson (JList [])
  /\ (forall entries, JList [] <> JDict entries)
  /\ exists w',
       for_each [("Ffuf", ["ffuf"]); ("Nikto", ["nikto"])]
                (run_tool (example_config "all")
                          (example_env 0 "console" (FileJson (JList []))))
                initial_world
       = (Raise AttributeError, w')
       /\ results w' = results initial_world
       /\ dispatched w' = (dispatched initial_world ++ [["ffuf"]])%list.
Proof.
  assert (H : forall entries, JList [] <> JDict entries) by discriminate.
  split; [reflexivity | split; [exact H | ]].
  exact (ffuf_file_not_an_object_aborts (example_config "all")
           (example_env 0 "console" (FileJson (JList [])))
           (JList []) ["ffuf"] [("Nikto", ["nikto"])] initial_world eq_refl H).
Defined.

Lemma nikto_special_case_counts_as_success_witness :
  1%Z <> 0%Z
  /\ contains "Nikto v" (strip ("- Nikto v2.5.0" ++ nl ++ "+ Target IP: 10.0.0.1")) = true
  /\ (contains "+ Target" (strip ("- Nikto v2.5.0" ++ nl ++ "+ Target IP: 10.0.0.1"))
      = true
      \/ contains "+ Server:" (strip ("- Nikto v2.5.0" ++ nl ++ "+ Target IP: 10.0.0.1"))
         = true)
  /\ normalize (example_config "nikto") (example_env 1 "" FileAbsent) "Nikto"
       (mkCompleted 1 ("- Nikto v2.5.0" ++ nl ++ "+ Target IP: 10.0.0.1")) initial_world
     = normalize (example_config "nikto") (example_env 1 "" FileAbsent) "Nikto"
         (mkCompleted 0 ("- Nikto v2.5.0" ++ nl ++ "+ Target IP: 10.0.0.1")) initial_world.
Proof.
  assert (H1 : 1%Z <> 0%Z) by discriminate.
  assert (H3 : contains "+ Target"
                 (strip ("- Nikto v2.5.0" ++ nl ++ "+ Target IP: 10.0.0.1")) = true
               \/ contains "+ Server:"
                    (strip ("- Nikto v2.5.0" ++ nl ++ "+ Target IP: 10.0.0.1")) = true).
  { left. reflexivity. }
  split; [exact H1 | split; [reflexivity | split; [exact H3 | ]]].
  exact (proj1 (nikto_special_case_counts_as_success (example_config "nikto")
                  (example_env 1 "" FileAbsent) 1
                  ("- Nikto v2.5.0" ++ nl ++ "+ Target IP: 10.0.0.1")
                  initial_world H1 eq_refl H3)).
Defined.

Lemma nikto_key_ignores_directory_and_extension_witness :
  no_slash "config" = true
  /\ no_slash "php" = true
  /\ no_dot "php" = true
  /\ only_dots "config" = false
  /\ nikto_basename ("/admin" ++ "/" ++ "config" ++ "." ++ "php") = "config".
Proof.
  split; [reflexivity | split; [reflexivity | split; [reflexivity | ]]].
  split; [reflexivity | ].
  exact (nikto_key_ignores_directory_and_extension "/admin" "config" "php"
           eq_refl eq_refl eq_refl eq_refl).
Defined.

Lemma wafwoof_text_is_first_verdict_line_witness :
  normalize (example_config "wafwoof") (example_env 0 "" FileAbsent) "Wafwoof"
    (mkCompleted 0 ("[*] Checking http://example.com" ++ nl
                    ++ "[+] The site example.com is behind CloudFront WAF." ++ nl
                    ++ "[~] Number of requests: 2"))
    initial_world
  = (Ret "[+] The site example.com is behind CloudFront WAF.",
     logged initial_world [(INFO, "Wafwoof executed successfully.")])
  /\ ((Forall (fun l => waf_verdict l = false)
              (splitlines
                 (strip ("[*] Checking http://example.com" ++ nl
                         ++ "[+] The site example.com is behind CloudFront WAF." ++ nl
                         ++ "[~] Number of requests: 2")))
       /\ "[+] The site example.com is behind CloudFront WAF."
          = strip ("[*] Checking http://example.com" ++ nl
                   ++ "[+] The site example.com is behind CloudFront WAF." ++ nl
                   ++ "[~] Number of requests: 2"))
      \/ (exists before line after,
            splitlines
              (strip ("[*] Checking http://example.com" ++ nl
                      ++ "[+] The site example.com is behind CloudFront WAF." ++ nl
                      ++ "[~] Number of requests: 2"))
            = (before ++ line :: after)%list
            /\ Forall (fun l => waf_verdict l = false) before
            /\ waf_verdict line = true
            /\ "[+] The site example.com is behind CloudFront WAF." = strip line
            /\ waf_verdict "[+] The site example.com is behind CloudFront WAF." = true
            /\ all_chars not_break "[+] The site example.com is behind CloudFront WAF."
               = true)).
Proof.
  split; [reflexivity | ].
  exact (wafwoof_text_is_first_verdict_line (example_config "wafwoof")
           (example_env 0 "" FileAbsent)
           ("[*] Checking http://example.com" ++ nl
            ++ "[+] The site example.com is behind CloudFront WAF." ++ nl
            ++ "[~] Number of requests: 2")
           "[+] The site example.com is behind CloudFront WAF."
           initial_world
           (logged initial_world [(INFO, "Wafwoof executed successfully.")])
           eq_refl).
Defined.

Lemma nmap_text_of_banners_is_empty_witness :
  Forall (fun l => nmap_banner l = true)
         (splitlines (strip ("Starting Nmap 7.94" ++ nl ++ "Nmap done: 0 IP addresses")))
  /\ normalize (example_config "nmap") (example_env 0 "" FileAbsent) "Nmap"
       (mkCompleted 0 ("Starting Nmap 7.94" ++ nl ++ "Nmap done: 0 IP addresses"))
       initial_world
     = (Ret "", logged initial_world [(INFO, "Nmap executed successfully.")]).
Proof.
  assert (H : Forall (fun l => nmap_banner l = true)
                (splitlines
                   (strip ("Starting Nmap 7.94" ++ nl ++ "Nmap done: 0 IP addresses")))).
  { vm_compute. repeat constructor. }
  split; [exact H | ].
  exact (nmap_text_of_banners_is_empty (example_config "nmap")
           (example_env 0 "" FileAbsent)
           ("Starting Nmap 7.94" ++ nl ++ "Nmap done: 0 IP addresses")
           initial_world H).
Defined.

Lemma nmap_text_keeps_banner_free_text_witness :
  strip ("80/tcp open http nginx" ++ nl ++ "443/tcp open https nginx")
  = "80/tcp open http nginx" ++ nl ++ "443/tcp open https nginx"
  /\ all_chars plain_or_lf ("80/tcp open http nginx" ++ nl ++ "443/tcp open https nginx")
     = true
  /\ Forall (fun l => nmap_banner l = false)
            (splitlines ("80/tcp open http nginx" ++ nl ++ "443/tcp open https nginx"))
  /\ normalize (example_config "nmap") (example_env 0 "" FileAbsent) "Nmap"
       (mkCompleted 0 ("80/tcp open http nginx" ++ nl ++ "443/tcp open https nginx"))
       initial_world
     = (Ret ("80/tcp open http nginx" ++ nl ++ "443/tcp open https nginx"),
        logged initial_world [(INFO, "Nmap executed successfully.")]).
Proof.
  assert (H : Forall (fun l => nmap_banner l = false)
                (splitlines ("80/tcp open http nginx" ++ nl
                             ++ "443/tcp open https nginx"))).
  { vm_compute. repeat constructor. }
  split; [reflexivity | split; [reflexivity | split; [exact H | ]]].
  exact (nmap_text_keeps_banner_free_text (example_config "nmap")
           (example_env 0 "" FileAbsent)
           ("80/tcp open http nginx" ++ nl ++ "443/tcp open https nginx")
           initial_world eq_refl eq_refl H).
Defined.

Lemma nmap_text_has_no_banner_after_first_line_witness :
  normalize (example_config "nmap") (example_env 0 "" FileAbsent) "Nmap"
    (mkCompleted 0 ("Starting Nmap 7.94" ++ nl ++ "PORT STATE SERVICE" ++ nl
                    ++ "80/tcp open http"))
    initial_world
  = (Ret ("PORT STATE SERVICE" ++ nl ++ "80/tcp open http"),
     logged initial_world [(INFO, "Nmap executed successfully.")])
  /\ In "80/tcp open http"
        (tl (splitlines ("PORT STATE SERVICE" ++ nl ++ "80/tcp open http")))
  /\ nmap_banner "80/tcp open http" = false.
Proof.
  assert (H : In "80/tcp open http"
                 (tl (splitlines ("PORT STATE SERVICE" ++ nl ++ "80/tcp open http")))).
  { left. reflexivity. }
  split; [reflexivity | split; [exact H | ]].
  exact (nmap_text_has_no_banner_after_first_line (example_config "nmap")
           (example_env 0 "" FileAbsent)
           ("Starting Nmap 7.94" ++ nl ++ "PORT STATE SERVICE" ++ nl ++ "80/tcp open http")
           ("PORT STATE SERVICE" ++ nl ++ "80/tcp open http")
           initial_world
           (logged initial_world [(INFO, "Nmap executed successfully.")])
           "80/tcp open http" eq_refl H).
Defined.

Lemma whatweb_drops_first_token_witness :
  returncode (mkCompleted 0 "http://x.com WhatWeb output") = 0%Z
  /\ contains " " (strip (stdout (mkCompleted 0 "http://x.com WhatWeb output"))) = true
  /\ exists token rest,
       strip (stdout (mkCompleted 0 "http://x.com WhatWeb output"))
       = token ++ " " ++ rest
       /\ contains " " token = false
       /\ normalize (example_config "whatweb") (example_env 0 "" FileAbsent) "Whatweb"
            (mkCompleted 0 "http://x.com WhatWeb output") initial_world
          = (Ret (strip rest),
             logged initial_world [(INFO, "Whatweb executed successfully.")]).
Proof.
  split; [reflexivity | split; [reflexivity | ]].
  exact (whatweb_drops_first_token (example_config "whatweb")
           (example_env 0 "" FileAbsent)
           (mkCompleted 0 "http://x.com WhatWeb output") initial_world
           eq_refl eq_refl).
Defined.

Lemma text_only_tools_always_return_witness :
  "Nikto" <> "Whatweb"
  /\ "Nikto" <> "Ffuf"
  /\ exists text lvl msg,
       normalize (example_config "nikto") (example_env 127 "" FileAbsent) "Nikto"
                 (mkCompleted 127 "nikto: command not found") initial_world
       = (Ret text, logged initial_world [(lvl, msg)])
       /\ strip text = text.
Proof.
  assert (H1 : "Nikto" <> "Whatweb") by discriminate.
  assert (H2 : "Nikto" <> "Ffuf") by discriminate.
  split; [exact H1 | split; [exact H2 | ]].
  exact (text_only_tools_always_return (example_config "nikto")
           (example_env 127 "" FileAbsent) "Nikto"
           (mkCompleted 127 "nikto: command not found") initial_world H1 H2).
Defined.

Lemma selection_ignores_case_and_spacing_witness :
  "nmap, NIKTO" <> "all"
  /\ "NMAP,nikto " <> "all"
  /\ selected_names "nmap, NIKTO" = selected_names "NMAP,nikto "
  /\ filterCommands (with_tools (example_config "all") "nmap, NIKTO") initial_world
     = filterCommands (with_tools (example_config "all") "NMAP,nikto ") initial_world.
Proof.
  assert (H1 : "nmap, NIKTO" <> "all") by discriminate.
  assert (H2 : "NMAP,nikto " <> "all") by discriminate.
  split; [exact H1 | split; [exact H2 | split; [reflexivity | ]]].
  exact (selection_ignores_case_and_spacing (example_config "all")
           "nmap, NIKTO" "NMAP,nikto " initial_world H1 H2 eq_refl).
Defined.

Lemma sys_exit_only_before_dispatch_witness :
  main (example_config "nmap,foo") (example_env 0 "" FileAbsent) initial_world
  = (Exit 1,
     mkWorld (preamble (example_config "nmap,foo")
              ++ [(ERROR, "Invalid tool(s) specified: foo")]) [] [])
  /\ 1%Z = 1%Z
  /\ ~ valid_selection (tools (example_config "nmap,foo"))
  /\ dispatched (mkWorld (preamble (example_config "nmap,foo")
                          ++ [(ERROR, "Invalid tool(s) specified: foo")]) [] []) = []
  /\ results (mkWorld (preamble (example_config "nmap,foo")
                       ++ [(ERROR, "Invalid tool(s) specified: foo")]) [] []) = [].
Proof.
  split; [reflexivity | ].
  exact (sys_exit_only_before_dispatch (example_config "nmap,foo")
           (example_env 0 "" FileAbsent) 1
           (mkWorld (preamble (example_config "nmap,foo")
                     ++ [(ERROR, "Invalid tool(s) specified: foo")]) [] [])
           eq_refl).
Defined.

Lemma no_tool_recorded_twice_witness :
  valid_selection (tools (example_config "nmap,whatweb,nikto"))
  /\ main (example_config "nmap,whatweb,nikto") (example_env 0 "" FileAbsent)
          initial_world
     = (fst (main (example_config "nmap,whatweb,nikto") (example_env 0 "" FileAbsent)
                  initial_world),
        snd (main (example_config "nmap,whatweb,nikto") (example_env 0 "" FileAbsent)
                  initial_world))
  /\ exists d rest,
       filterCommands (example_config "nmap,whatweb,nikto")
                      (logged initial_world (preamble (example_config "nmap,whatweb,nikto")))
       = (Ret d, logged initial_world (preamble (example_config "nmap,whatweb,nikto")))
       /\ PyVal.keys d
          = (map Tool (results (snd (main (example_config "nmap,whatweb,nikto")
                                          (example_env 0 "" FileAbsent) initial_world)))
             ++ rest)%list
       /\ NoDup (map Tool (results (snd (main (example_config "nmap,whatweb,nikto")
                                              (example_env 0 "" FileAbsent)
                                              initial_world))))
       /\ (fst (main (example_config "nmap,whatweb,nikto") (example_env 0 "" FileAbsent)
                     initial_world) = Ret tt -> rest = [])
       /\ (List.length (results (snd (main (example_config "nmap,whatweb,nikto")
                                           (example_env 0 "" FileAbsent) initial_world)))
           <= List.length (dispatched (snd (main (example_config "nmap,whatweb,nikto")
                                                 (example_env 0 "" FileAbsent)
                                                 initial_world)))
           <= S (List.length (results (snd (main (example_config "nmap,whatweb,nikto")
                                                 (example_env 0 "" FileAbsent)
                                                 initial_world)))))%nat.
Proof.
  assert (H : valid_selection (tools (example_config "nmap,whatweb,nikto"))).
  { right. repeat constructor. }
  split; [exact H | split; [reflexivity | ]].
  exact (no_tool_recorded_twice (example_config "nmap,whatweb,nikto")
           (example_env 0 "" FileAbsent) _ _ H eq_refl).
Defined.

Lemma rows_are_those_of_the_tools_alone_witness :
  for_each [("Nmap", ["nmap"]); ("Wafwoof", ["wafw00f"])]
           (run_tool (example_config "all") (example_env 0 "No WAF detected" FileAbsent))
           initial_world
  = (Ret tt,
     snd (for_each [("Nmap", ["nmap"]); ("Wafwoof", ["wafw00f"])]
                   (run_tool (example_config "all")
                             (example_env 0 "No WAF detected" FileAbsent))
                   initial_world))
  /\ results (snd (for_each [("Nmap", ["nmap"]); ("Wafwoof", ["wafw00f"])]
                            (run_tool (example_config "all")
                                      (example_env 0 "No WAF detected" FileAbsent))
                            initial_world))
     = (results initial_world
        ++ map (fun item =>
                  mkRow (fst item)
                        (text_alone (example_config "all")
                                    (example_env 0 "No WAF detected" FileAbsent) item))
               [("Nmap", ["nmap"]); ("Wafwoof", ["wafw00f"])])%list.
Proof.
  split; [reflexivity | ].
  exact (rows_are_those_of_the_tools_alone (example_config "all")
           (example_env 0 "No WAF detected" FileAbsent)
           [("Nmap", ["nmap"]); ("Wafwoof", ["wafw00f"])] initial_world _ eq_refl).
Defined.

Lemma wafwoof_failure_keeps_error_payload_witness :
  returncode (mkCompleted 1 "connection refused") <> 0%Z
  /\ contains "No WAF detected" (strip (stdout (mkCompleted 1 "connection refused")))
     = false
  /\ contains "is behind" (strip (stdout (mkCompleted 1 "connection refused"))) = false
  /\ normalize (example_config "wafwoof") (example_env 1 "" FileAbsent) "Wafwoof"
       (mkCompleted 1 "connection refused") initial_world
     = (Ret (strip ("Error: " ++ strip (stdout (mkCompleted 1 "connection refused")))),
        logged initial_world
               [(ERROR, "Wafwoof failed with exit code "
                        ++ of_int (returncode (mkCompleted 1 "connection refused")))]).
Proof.
  assert (H : returncode (mkCompleted 1 "connection refused") <> 0%Z) by discriminate.
  split; [exact H | split; [reflexivity | split; [reflexivity | ]]].
  exact (wafwoof_failure_keeps_error_payload (example_config "wafwoof")
           (example_env 1 "" FileAbsent) (mkCompleted 1 "connection refused")
           initial_world H eq_refl eq_refl).
Defined.

Lemma nmap_failure_keeps_error_marker_witness :
  returncode (mkCompleted 2 "Failed to resolve host") <> 0%Z
  /\ exists text,
       normalize (example_config "nmap") (example_env 2 "" FileAbsent) "Nmap"
                 (mkCompleted 2 "Failed to resolve host") initial_world
       = (Ret text,
          logged initial_world
                 [(ERROR, "Nmap failed with exit code "
                          ++ of_int (returncode (mkCompleted 2 "Failed to resolve host")))])
       /\ startswith text "Error:" = true.
Proof.
  assert (H : returncode (mkCompleted 2 "Failed to resolve host") <> 0%Z) by discriminate.
  split; [exact H | ].
  exact (nmap_failure_keeps_error_marker (example_config "nmap")
           (example_env 2 "" FileAbsent) (mkCompleted 2 "Failed to resolve host")
           initial_world H).
Defined.



End MoreExamples.
